(** * CrowdSense: the people-counter dashboard

    A shallow embedding of [src/components/TimeSeriesClient.tsx] (both the
    password-gated variant, capped at 100 rows, and the always-on variant
    that reads all rows) and of the server page [TimeSeriesPage], followed by
    the properties of the view-model builder, the CSV export, the data
    fetcher and the polling controller.

    Conventions.
    - A JavaScript [number] holding a people count is an integer [Z]; what
      is said of its decimal text is said of the safe integers
      ([JS.safeInteger], [|n| < 2^53]), which a number holds exactly.
    - A valid JavaScript [Date] is its time value: milliseconds since the
      epoch, an integer [Z] with [|t| <= 8.64e15].
    - The built-ins the component calls ([Array.prototype.some], [at],
      [sort], [join], template literals, [Date.prototype.toISOString],
      [atob], [setInterval], [clearInterval]) are modelled in the module
      [JS] after ECMAScript and the HTML standard. *)

From Stdlib Require Import ZArith List String Ascii Bool Lia.
From Stdlib Require Import Sorted Permutation DecimalString.
From Stdlib Require DecimalPos DecimalZ.
Import ListNotations.

Local Open Scope string_scope.
Local Open Scope list_scope.
Local Open Scope Z_scope.

(* ================================================================== *)
(** * Part I: definitions *)
(* ================================================================== *)

(** ** The JavaScript built-ins used by the component *)

Module JS.

(** [Array.prototype.some]. *)
Definition some {A} (f : A -> bool) (l : list A) : bool := existsb f l.

(** [Array.prototype.at]: a negative index counts from the end; out of
    range gives [undefined], here [None]. *)
Definition at_ {A} (l : list A) (i : Z) : option A :=
  let len := Z.of_nat (List.length l) in
  let k := if i <? 0 then len + i else i in
  if (k <? 0) || (len <=? k) then None else nth_error l (Z.to_nat k).

(** [Array.prototype.sort(comparefn)].  ECMAScript requires the sort to be
    stable; [comparefn a b < 0] puts [a] first, [> 0] puts [b] first and
    [= 0] keeps the order of the input.  For a consistent comparator the
    result does not depend on the algorithm; the model is insertion from
    the right, which never moves an element past one it compares equal
    to. *)
Section Sort.
Context {A : Type} (comparefn : A -> A -> Z).

Fixpoint insert (x : A) (l : list A) : list A :=
  match l with
  | [] => [x]
  | y :: l' => if comparefn x y <=? 0 then x :: l else y :: insert x l'
  end.

Definition sort (l : list A) : list A := fold_right insert [] l.
End Sort.

(** [Array.prototype.join] on an array of strings. *)
Fixpoint join (sep : string) (l : list string) : string :=
  match l with
  | [] => ""
  | [s] => s
  | s :: l' => s ++ sep ++ join sep l'
  end.

(** [Number::toString] (radix 10) of an integral number: the decimal
    digits, with a leading minus sign for a negative one.  This is what the
    built-in writes for a safe integer; beyond [2^53] it writes only the
    digits that identify the double, and from [1e21] exponent notation,
    which this function does not follow. *)
Definition numberToString (n : Z) : string :=
  NilZero.string_of_int (Z.to_int n).

(** [Number.isSafeInteger]: the integers that a number holds exactly. *)
Definition maxSafeInteger : Z := 9007199254740991.
Definition safeInteger (n : Z) : Prop := - maxSafeInteger <= n <= maxSafeInteger.

(** A template literal or [join] turns each cell into a string with
    [ToString]; the cells of the CSV rows are numbers and strings. *)
Inductive Cell : Type :=
| CNum (n : Z)
| CStr (s : string).

Definition ToString (c : Cell) : string :=
  match c with
  | CNum n => numberToString n
  | CStr s => s
  end.

(** *** [Date]: time values and [toISOString] (ECMAScript 21.4.1) *)

Definition msPerSecond : Z := 1000.
Definition msPerMinute : Z := 60000.
Definition msPerHour : Z := 3600000.
Definition msPerDay : Z := 86400000.

(** The range of the time value of a valid [Date]. *)
Definition maxTime : Z := 8640000000000000.
Definition validTime (t : Z) : Prop := - maxTime <= t <= maxTime.

Definition Day (t : Z) : Z := t / msPerDay.
Definition TimeWithinDay (t : Z) : Z := t mod msPerDay.

Definition DaysInYear (y : Z) : Z :=
  if negb (y mod 4 =? 0) then 365
  else if negb (y mod 100 =? 0) then 366
  else if negb (y mod 400 =? 0) then 365
  else 366.

Definition DayFromYear (y : Z) : Z :=
  365 * (y - 1970) + (y - 1969) / 4 - (y - 1901) / 100 + (y - 1601) / 400.

Definition TimeFromYear (y : Z) : Z := msPerDay * DayFromYear y.

(** [YearFromTime t] is the largest [y] with [TimeFromYear y <= t]: an
    estimate from the mean length of a year, corrected by at most one. *)
Definition YearFromTime (t : Z) : Z :=
  let d := Day t in
  let y0 := 1970 + (400 * d) / 146097 in
  if d <? DayFromYear y0 then y0 - 1
  else if DayFromYear (y0 + 1) <=? d then y0 + 1
  else y0.

Definition InLeapYear (t : Z) : Z :=
  if DaysInYear (YearFromTime t) =? 366 then 1 else 0.

Definition DayWithinYear (t : Z) : Z := Day t - DayFromYear (YearFromTime t).

(** The day of the year on which month [m] (0 = January) starts. *)
Definition monthStart (leap m : Z) : Z :=
  match m with
  | 0 => 0
  | 1 => 31
  | 2 => 59 + leap
  | 3 => 90 + leap
  | 4 => 120 + leap
  | 5 => 151 + leap
  | 6 => 181 + leap
  | 7 => 212 + leap
  | 8 => 243 + leap
  | 9 => 273 + leap
  | 10 => 304 + leap
  | 11 => 334 + leap
  | _ => 365 + leap
  end.

Definition MonthFromTime (t : Z) : Z :=
  let d := DayWithinYear t in
  let leap := InLeapYear t in
  if d <? 31 then 0
  else if d <? 59 + leap then 1
  else if d <? 90 + leap then 2
  else if d <? 120 + leap then 3
  else if d <? 151 + leap then 4
  else if d <? 181 + leap then 5
  else if d <? 212 + leap then 6
  else if d <? 243 + leap then 7
  else if d <? 273 + leap then 8
  else if d <? 304 + leap then 9
  else if d <? 334 + leap then 10
  else 11.

Definition DateFromTime (t : Z) : Z :=
  DayWithinYear t - monthStart (InLeapYear t) (MonthFromTime t) + 1.

Definition HourFromTime (t : Z) : Z := (t / msPerHour) mod 24.
Definition MinFromTime (t : Z) : Z := (t / msPerMinute) mod 60.
Definition SecFromTime (t : Z) : Z := (t / msPerSecond) mod 60.
Definition msFromTime (t : Z) : Z := t mod msPerSecond.

Definition MakeTime (hour min sec ms : Z) : Z :=
  hour * msPerHour + min * msPerMinute + sec * msPerSecond + ms.

(** [MakeDay] for a month in 0..11: the day number of the first of the
    month, plus the date. *)
Definition MakeDay (year month date : Z) : Z :=
  let leap := if DaysInYear year =? 366 then 1 else 0 in
  DayFromYear year + monthStart leap month + date - 1.

Definition MakeDate (day time : Z) : Z := day * msPerDay + time.

(** [TimeClip]: [None] stands for NaN. *)
Definition TimeClip (t : Z) : option Z :=
  if Z.abs t <=? maxTime then Some t else None.

(** The decimal digit [d] as a character, and back. *)
Definition digitChar (d : Z) : ascii := ascii_of_N (48 + Z.to_N d).

Definition digitValue (c : ascii) : option Z :=
  let n := Z.of_N (N_of_ascii c) in
  if (48 <=? n) && (n <=? 57) then Some (n - 48) else None.

(** The [w] low decimal digits of [n], most significant first: the
    zero-padded fields of the date-time string format. *)
Fixpoint digits (w : nat) (n : Z) : string :=
  match w with
  | O => EmptyString
  | S w' => String (digitChar ((n / 10 ^ Z.of_nat w') mod 10)) (digits w' n)
  end.

(** The year field: four digits, or a sign and six digits outside
    0..9999 (the expanded years). *)
Definition yearField (y : Z) : string :=
  if (0 <=? y) && (y <=? 9999) then digits 4 y
  else if y <? 0 then String "-" (digits 6 (- y))
  else String "+" (digits 6 y).

(** [Date.prototype.toISOString] of a valid date:
    [YYYY-MM-DDTHH:mm:ss.sssZ] on the UTC time scale. *)
Definition toISOString (t : Z) : string :=
  (yearField (YearFromTime t) ++ "-" ++ digits 2 (MonthFromTime t + 1)
     ++ "-" ++ digits 2 (DateFromTime t)
     ++ "T" ++ digits 2 (HourFromTime t)
     ++ ":" ++ digits 2 (MinFromTime t)
     ++ ":" ++ digits 2 (SecFromTime t)
     ++ "." ++ digits 3 (msFromTime t) ++ "Z")%string.

(** *** Reading the date-time string format back ([Date.parse]) *)

(** The complete form that [toISOString] writes is read field by field;
    any other text is rejected with [None] (NaN). *)
Fixpoint readDigits (w : nat) (acc : Z) (s : string) : option (Z * string) :=
  match w with
  | O => Some (acc, s)
  | S w' =>
      match s with
      | String c s' =>
          match digitValue c with
          | Some d => readDigits w' (acc * 10 + d) s'
          | None => None
          end
      | EmptyString => None
      end
  end.

Definition readChar (c : ascii) (s : string) : option string :=
  match s with
  | String c' s' => if Ascii.eqb c c' then Some s' else None
  | EmptyString => None
  end.

Definition readYear (s : string) : option (Z * string) :=
  match s with
  | String "+" s' => readDigits 6 0 s'
  | String "-" s' =>
      match readDigits 6 0 s' with
      | Some (y, r) => if y =? 0 then None else Some (- y, r)
      | None => None
      end
  | _ => readDigits 4 0 s
  end.

Definition DaysInMonth (year month : Z) : Z :=
  let leap := if DaysInYear year =? 366 then 1 else 0 in
  monthStart leap (month + 1) - monthStart leap month.

Definition bind {A B} (o : option A) (f : A -> option B) : option B :=
  match o with
  | Some a => f a
  | None => None
  end.

Notation "' p <- o ;; k" := (bind o (fun p => k))
  (at level 61, p pattern, o at next level, right associativity).
Notation "x <- o ;; k" := (bind o (fun x => k))
  (at level 61, o at next level, right associativity).

Definition parse (s : string) : option Z :=
  '(y, s) <- readYear s ;;
  s <- readChar "-" s ;;
  '(mo, s) <- readDigits 2 0 s ;;
  s <- readChar "-" s ;;
  '(d, s) <- readDigits 2 0 s ;;
  s <- readChar "T" s ;;
  '(h, s) <- readDigits 2 0 s ;;
  s <- readChar ":" s ;;
  '(mi, s) <- readDigits 2 0 s ;;
  s <- readChar ":" s ;;
  '(sec, s) <- readDigits 2 0 s ;;
  s <- readChar "." s ;;
  '(ms, s) <- readDigits 3 0 s ;;
  s <- readChar "Z" s ;;
  match s with
  | EmptyString =>
      if (1 <=? mo) && (mo <=? 12)
         && (1 <=? d) && (d <=? DaysInMonth y (mo - 1))
         && ((h <=? 23) || ((h =? 24) && (mi =? 0) && (sec =? 0) && (ms =? 0)))
         && (mi <=? 59) && (sec <=? 59)
      then TimeClip (MakeDate (MakeDay y (mo - 1) d) (MakeTime h mi sec ms))
      else None
  | _ => None
  end.

(** *** [atob]: forgiving base64 decoding (HTML standard) *)

Definition isSpace (c : ascii) : bool :=
  let n := N_of_ascii c in
  (N.eqb n 9 || N.eqb n 10 || N.eqb n 12 || N.eqb n 13 || N.eqb n 32)%bool.

Definition base64Value (c : ascii) : option Z :=
  let n := Z.of_N (N_of_ascii c) in
  if (65 <=? n) && (n <=? 90) then Some (n - 65)
  else if (97 <=? n) && (n <=? 122) then Some (n - 71)
  else if (48 <=? n) && (n <=? 57) then Some (n + 4)
  else if n =? 43 then Some 62
  else if n =? 47 then Some 63
  else None.

Fixpoint base64Values (l : list ascii) : option (list Z) :=
  match l with
  | [] => Some []
  | c :: l' =>
      match base64Value c, base64Values l' with
      | Some v, Some vs => Some (v :: vs)
      | _, _ => None
      end
  end.

(** Four sextets give three bytes; a tail of three gives two bytes and a
    tail of two gives one, the spare bits being dropped. *)
Fixpoint bytesOfSextets (l : list Z) : list Z :=
  match l with
  | a :: b :: c :: d :: r =>
      let n := a * 262144 + b * 4096 + c * 64 + d in
      n / 65536 :: (n / 256) mod 256 :: n mod 256 :: bytesOfSextets r
  | [a; b; c] =>
      let n := a * 4096 + b * 64 + c in
      [n / 1024; (n / 4) mod 256]
  | [a; b] => [(a * 64 + b) / 16]
  | _ => []
  end.

Definition stripPadding (l : list ascii) : list ascii :=
  if Nat.eqb (List.length l mod 4) 0 then
    match rev l with
    | "="%char :: "="%char :: r => rev r
    | "="%char :: r => rev r
    | _ => l
    end
  else l.

(** [None] stands for the [InvalidCharacterError] exception. *)
Definition atob (s : string) : option string :=
  let l := filter (fun c => negb (isSpace c)) (list_ascii_of_string s) in
  let l := stripPadding l in
  if Nat.eqb (List.length l mod 4) 1 then None
  else
    match base64Values l with
    | Some vs =>
        Some (string_of_list_ascii
                (map (fun b => ascii_of_N (Z.to_N b)) (bytesOfSextets vs)))
    | None => None
    end.

End JS.

(** ** Data model *)

(** [TimeSeriesData], the row type exported by the page. *)
Module TimeSeriesData.
Record t : Type := mk
  { id : string;
    created_at : string;
    people_count : Z }.
End TimeSeriesData.

(** [ChartData], the display point. *)
Module ChartData.
Record t : Type := mk
  { id : string;
    time : string;
    value : Z;
    timestamp : Z }.
End ChartData.

(** ** View-model builder *)

(** The three functions of luxon's [DateTime] that [chartData] calls are
    parameters: the zone of [toFormat] is the browser's.  [toJSDate] gives
    the time value of a valid date; the Invalid Date that luxon returns for
    a [created_at] it cannot parse is outside this model. *)
Section ChartDataOf.
Variable DateTime : Type.
Variable fromISO : string -> DateTime.
Variable toFormat : DateTime -> string -> string.
Variable toJSDate : DateTime -> Z.

(** [chartData]: one display point per row, in the order of the rows. *)
Definition chartData (dataState : list TimeSeriesData.t) : list ChartData.t :=
  map (fun d =>
         let dt := fromISO (TimeSeriesData.created_at d) in
         {| ChartData.id := TimeSeriesData.id d;
            ChartData.time := toFormat dt "HH:mm:ss";
            ChartData.value := TimeSeriesData.people_count d;
            ChartData.timestamp := toJSDate dt |})
      dataState.
End ChartDataOf.

(** The comparator of [tableData]: [b.timestamp.getTime() -
    a.timestamp.getTime()]. *)
Definition byTimestampDesc (a b : ChartData.t) : Z :=
  ChartData.timestamp b - ChartData.timestamp a.

(** [tableData]: a sorted copy of [chartData]. *)
Definition tableData (chartData : list ChartData.t) : list ChartData.t :=
  JS.sort byTimestampDesc chartData.

(** [isThresholdExceeded]. *)
Definition isThresholdExceeded (chartData : list ChartData.t) (threshold : Z) : bool :=
  JS.some (fun point => threshold <? ChartData.value point) chartData.

(** [latestValue]: a number, or the string shown when there is no data. *)
Definition latestValue (chartData : list ChartData.t) : Z + string :=
  match JS.at_ chartData (-1) with
  | Some point => inl (ChartData.value point)
  | None => inr "N/A"
  end.

(** Vocabulary of the properties of the view model. *)

(** The largest value of a non-empty sequence of points. *)
Definition maxValue (p : ChartData.t) (ps : list ChartData.t) : Z :=
  fold_left Z.max (map ChartData.value ps) (ChartData.value p).

Definition ts := ChartData.timestamp.

(** The points with timestamp [t]. *)
Definition atTime (t : Z) (p : ChartData.t) : bool := ts p =? t.

(** Two points recorded at the same instant. *)
Definition tiePoints : list ChartData.t :=
  [ChartData.mk "a" "08:00:00" 3 1719820800000;
   ChartData.mk "b" "08:00:00" 12 1719820800000].

(** The scenario of the specification: 3 at 08:00:00, 12 at 08:00:05. *)
Definition scenarioPoints : list ChartData.t :=
  [ChartData.mk "a" "08:00:00" 3 1719820800000;
   ChartData.mk "b" "08:00:05" 12 1719820805000].

(** ** CSV export *)

Definition quoteChar : ascii := "034"%char.
Definition newline : string := String "010"%char EmptyString.

(** The cell template: the cell between two double quotes. *)
Definition quoted (cell : JS.Cell) : string :=
  String quoteChar (JS.ToString cell ++ String quoteChar EmptyString)%string.

Definition header : list JS.Cell :=
  [JS.CStr "People Count"; JS.CStr "Timestamp (ISO)"].

Definition rows (chartData : list ChartData.t) : list (list JS.Cell) :=
  map (fun row => [JS.CNum (ChartData.value row);
                   JS.CStr (JS.toISOString (ChartData.timestamp row))])
      chartData.

Definition csvLine (r : list JS.Cell) : string := JS.join "," (map quoted r).

(** The text of the document: [csv] in [exportDataToCsv]. *)
Definition csv (chartData : list ChartData.t) : string :=
  JS.join newline (map csvLine (header :: rows chartData)).

(** What [exportDataToCsv] hands to the browser: the blob, its type and the
    name of the download.  [today] is [DateTime.now().toISODate()]. *)
Record Download : Type :=
  { content : string;
    mimeType : string;
    fileName : string }.

Definition exportDataToCsv (today : string) (chartData : list ChartData.t) : Download :=
  {| content := csv chartData;
     mimeType := "text/csv;charset=utf-8;";
     fileName := ("people_counter_export_" ++ today ++ ".csv")%string |}.

(** The lines of a text: the pieces between its newline characters. *)
Fixpoint lines (s : string) : list string :=
  match s with
  | EmptyString => [EmptyString]
  | String c s' =>
      if Ascii.eqb c "010"%char then EmptyString :: lines s'
      else match lines s' with
           | l :: ls => String c l :: ls
           | [] => [String c EmptyString]
           end
  end.

(** [avoids c s]: the character [c] does not occur in [s]. *)
Fixpoint avoids (c : ascii) (s : string) : bool :=
  match s with
  | EmptyString => true
  | String c' s' => negb (Ascii.eqb c' c) && avoids c s'
  end.

(** The header line and the line of one point, written out. *)
Definition headerLine : string :=
  String quoteChar ("People Count" ++ String quoteChar
    ("," ++ String quoteChar ("Timestamp (ISO)" ++ String quoteChar EmptyString)))%string.

Definition dataLine (p : ChartData.t) : string :=
  String quoteChar (JS.numberToString (ChartData.value p) ++ String quoteChar
    ("," ++ String quoteChar (JS.toISOString (ChartData.timestamp p)
                                ++ String quoteChar EmptyString)))%string.

(** The second field of a CSV data line: the text between the third and
    the fourth double quote. *)
Fixpoint afterQuote (s : string) : string :=
  match s with
  | EmptyString => EmptyString
  | String c s' => if Ascii.eqb c quoteChar then s' else afterQuote s'
  end.

Fixpoint beforeQuote (s : string) : string :=
  match s with
  | EmptyString => EmptyString
  | String c s' => if Ascii.eqb c quoteChar then EmptyString else String c (beforeQuote s')
  end.

Definition secondField (line : string) : string :=
  beforeQuote (afterQuote (afterQuote (afterQuote line))).

(** ** The remote data source *)

(** The query builder of the supabase client, as far as the component uses
    it: [from(table).select(columns).order(column, {ascending}).limit(n)]. *)
Module Supabase.

Record Query : Type :=
  { table : string;
    columns : string;
    orderBy : option (string * bool);
    rowCap : option nat }.

Definition from (table : string) : Query :=
  {| table := table; columns := "*"; orderBy := None; rowCap := None |}.

Definition select (columns : string) (q : Query) : Query :=
  {| table := table q; columns := columns;
     orderBy := orderBy q; rowCap := rowCap q |}.

Definition order (column : string) (ascending : bool) (q : Query) : Query :=
  {| table := table q; columns := columns q;
     orderBy := Some (column, ascending); rowCap := rowCap q |}.

Definition limit (count : nat) (q : Query) : Query :=
  {| table := table q; columns := columns q;
     orderBy := orderBy q; rowCap := Some count |}.

(** What awaiting a query gives: [{ data, error }]. *)
Record Response : Type :=
  { data : option (list TimeSeriesData.t);
    error : option string }.

(** The Remote Data Source is outside the repository.  Its reading of a
    query is that of PostgREST over SQL: the rows of the table are put in
    the requested order ([ORDER BY created_at ASC] or [DESC]) and then
    the first [n] of them are kept ([LIMIT n]).  [instant] is the instant
    that the text of a [created_at] column denotes.  Two things the service
    adds are not modelled: a maximum number of rows that the server may
    impose on every answer (so what is said of a query without [limit] is
    not said of the service), and the order of rows created at the same
    instant, which SQL leaves open and which here is the table order. *)
Section Execute.
Variable instant : string -> Z.

Definition created (r : TimeSeriesData.t) : Z :=
  instant (TimeSeriesData.created_at r).

Definition byCreatedAt (ascending : bool) (a b : TimeSeriesData.t) : Z :=
  if ascending then created a - created b else created b - created a.

Definition execute (rows : list TimeSeriesData.t) (q : Query)
  : list TimeSeriesData.t :=
  let ordered :=
    match orderBy q with
    | Some (_, ascending) => JS.sort (byCreatedAt ascending) rows
    | None => rows
    end in
  match rowCap q with
  | Some n => firstn n ordered
  | None => ordered
  end.
End Execute.

End Supabase.

(** The query of [fetchData] in the gated variant (lines 38-42) and of
    [TimeSeriesPage]: at most 100 rows. *)
Definition cappedQuery : Supabase.Query :=
  Supabase.limit 100
    (Supabase.order "created_at" true
       (Supabase.select "id, created_at, people_count"
          (Supabase.from "people_counter"))).

(** The query of [fetchData] in the always-on variant (lines 337-340): all
    rows. *)
Definition allRowsQuery : Supabase.Query :=
  Supabase.order "created_at" true
    (Supabase.select "id, created_at, people_count"
       (Supabase.from "people_counter")).

(** [TimeSeriesPage]: the failure paragraph, or the client with the rows. *)
Definition TimeSeriesPage (r : Supabase.Response) : string + list TimeSeriesData.t :=
  match Supabase.error r with
  | Some _ => inl "Failed to load data."
  | None => inr (match Supabase.data r with Some d => d | None => [] end)
  end.

(** ** The browser: clock, interval timers, network, console, alerts *)

(** The component registers one kind of interval callback: the arrow
    function given to [setInterval] in its effect. *)
Inductive Callback : Type := EffectTick.

Record Interval : Type :=
  { callback : Callback;
    delay : Z;
    due : Z }.

Record Browser : Type :=
  { now : Z;
    intervals : list (nat * Interval);
    nextId : nat;
    requests : list Supabase.Query;
    console : list string;
    alerts : list string }.

Definition newBrowser (t : Z) : Browser :=
  {| now := t; intervals := []; nextId := 1; requests := [];
     console := []; alerts := [] |}.

(** [setInterval(callback, ms)]: the first call is due [ms] from now. *)
Definition setInterval (cb : Callback) (ms : Z) (b : Browser) : nat * Browser :=
  (nextId b,
   {| now := now b;
      intervals := intervals b
                   ++ [(nextId b, {| callback := cb; delay := ms; due := now b + ms |})];
      nextId := S (nextId b);
      requests := requests b; console := console b; alerts := alerts b |}).

Definition clearInterval (id : nat) (b : Browser) : Browser :=
  {| now := now b;
     intervals := filter (fun e => negb (Nat.eqb (fst e) id)) (intervals b);
     nextId := nextId b;
     requests := requests b; console := console b; alerts := alerts b |}.

(** Sending a query over the network. *)
Definition send (q : Supabase.Query) (b : Browser) : Browser :=
  {| now := now b; intervals := intervals b; nextId := nextId b;
     requests := requests b ++ [q];
     console := console b; alerts := alerts b |}.

Definition consoleError (msg : string) (b : Browser) : Browser :=
  {| now := now b; intervals := intervals b; nextId := nextId b;
     requests := requests b;
     console := console b ++ [msg]; alerts := alerts b |}.

Definition alert (msg : string) (b : Browser) : Browser :=
  {| now := now b; intervals := intervals b; nextId := nextId b;
     requests := requests b;
     console := console b; alerts := alerts b ++ [msg] |}.

Definition setNow (t : Z) (b : Browser) : Browser :=
  {| now := t; intervals := intervals b; nextId := nextId b;
     requests := requests b; console := console b; alerts := alerts b |}.

(** After interval [id] has fired it is due again one delay later. *)
Definition reschedule (id : nat) (b : Browser) : Browser :=
  {| now := now b;
     intervals :=
       map (fun e => if Nat.eqb (fst e) id
                     then (fst e, {| callback := callback (snd e);
                                     delay := delay (snd e);
                                     due := due (snd e) + delay (snd e) |})
                     else e)
           (intervals b);
     nextId := nextId b;
     requests := requests b; console := console b; alerts := alerts b |}.

(** The interval that fires next, among those due at or before [target]:
    the earliest, and of two due together the one registered first. *)
Fixpoint nextDue (target : Z) (l : list (nat * Interval)) : option (nat * Interval) :=
  match l with
  | [] => None
  | e :: l' =>
      match nextDue target l' with
      | Some e' =>
          if (due (snd e) <=? target) && (due (snd e) <=? due (snd e'))
          then Some e else Some e'
      | None => if due (snd e) <=? target then Some e else None
      end
  end.

(** A mounted component: its state, the browser around it, and the
    interval that the cleanup function of its effect will clear. *)
Record World (S : Type) : Type :=
  { view : S;
    env : Browser;
    cleanup : option nat }.

Arguments view {S} _.
Arguments env {S} _.
Arguments cleanup {S} _.

Definition onView {S} (f : S -> S) (w : World S) : World S :=
  {| view := f (view w); env := env w; cleanup := cleanup w |}.

Definition onEnv {S} (f : Browser -> Browser) (w : World S) : World S :=
  {| view := view w; env := f (env w); cleanup := cleanup w |}.

(** The event loop: time passes until [target]; every interval that falls
    due fires in turn, running its callback with [exec]. *)
Section EventLoop.
Context {S : Type} (exec : Callback -> World S -> World S).

Fixpoint runTimers (fuel : nat) (target : Z) (w : World S) : World S :=
  match fuel with
  | O => w
  | Datatypes.S fuel' =>
      match nextDue target (intervals (env w)) with
      | Some (id, iv) =>
          runTimers fuel' target
            (exec (callback iv)
               (onEnv (fun b => reschedule id (setNow (due iv) b)) w))
      | None => onEnv (setNow target) w
      end
  end.

(** [dt] milliseconds pass.  An interval of at least a millisecond fires
    at most once per millisecond, which bounds the number of rounds. *)
Definition elapse (dt : Z) (w : World S) : World S :=
  let dt := Z.max 0 dt in
  runTimers (Datatypes.S (Z.to_nat dt * Datatypes.S (List.length (intervals (env w)))))
    (now (env w) + dt) w.
End EventLoop.

(** ** [fetchData] *)

(** [fetchData(setRefreshing, setDataState, setLastRefreshed)] returns an
    async function.  Calling that function runs it up to its [await]
    ([call]); when the response arrives it runs to the end ([resume]).
    [query] is the query of the variant. *)
Record AsyncFunction (S : Type) : Type :=
  { call : World S -> World S;
    resume : Supabase.Response -> World S -> World S }.

Arguments call {S} _.
Arguments resume {S} _.

Section FetchData.
Context {S : Type}.
Variable query : Supabase.Query.
Variable setRefreshing : bool -> S -> S.
Variable setDataState : list TimeSeriesData.t -> S -> S.
Variable setLastRefreshed : option Z -> S -> S.

Definition fetchData : AsyncFunction S :=
  {| call := fun w =>
       let w := onView (setRefreshing true) w in
       onEnv (send query) w;
     resume := fun r w =>
       let w :=
         match Supabase.error r with
         | Some e => onEnv (consoleError ("Supabase fetch error: " ++ e)) w
         | None =>
             let w := onView (setDataState
                                (match Supabase.data r with
                                 | Some d => d
                                 | None => []
                                 end)) w in
             onView (setLastRefreshed (Some (now (env w)))) w
         end in
       onView (setRefreshing false) w |}.
End FetchData.

(** ** The gated variant: realtime behind a password, at most 100 rows *)

Module Gated.

Record State : Type := mkState
  { threshold : Z;
    dataState : list TimeSeriesData.t;
    realtimeEnabled : bool;
    showPasswordModal : bool;
    password : string;
    refreshing : bool;
    lastRefreshed : option Z }.

Definition setThreshold (v : Z) (s : State) : State :=
  mkState v (dataState s) (realtimeEnabled s) (showPasswordModal s)
    (password s) (refreshing s) (lastRefreshed s).
Definition setDataState (v : list TimeSeriesData.t) (s : State) : State :=
  mkState (threshold s) v (realtimeEnabled s) (showPasswordModal s)
    (password s) (refreshing s) (lastRefreshed s).
Definition setRealtimeEnabled (v : bool) (s : State) : State :=
  mkState (threshold s) (dataState s) v (showPasswordModal s)
    (password s) (refreshing s) (lastRefreshed s).
Definition setShowPasswordModal (v : bool) (s : State) : State :=
  mkState (threshold s) (dataState s) (realtimeEnabled s) v
    (password s) (refreshing s) (lastRefreshed s).
Definition setPassword (v : string) (s : State) : State :=
  mkState (threshold s) (dataState s) (realtimeEnabled s) (showPasswordModal s)
    v (refreshing s) (lastRefreshed s).
Definition setRefreshing (v : bool) (s : State) : State :=
  mkState (threshold s) (dataState s) (realtimeEnabled s) (showPasswordModal s)
    (password s) v (lastRefreshed s).
Definition setLastRefreshed (v : option Z) (s : State) : State :=
  mkState (threshold s) (dataState s) (realtimeEnabled s) (showPasswordModal s)
    (password s) (refreshing s) v.

(** The [useState] initial values. *)
Definition initialState (data : list TimeSeriesData.t) : State :=
  mkState 100 data false false "" false None.

Definition fetchData : AsyncFunction State :=
  fetchData cappedQuery setRefreshing setDataState setLastRefreshed.

(** The interval callback (lines 98-100): it evaluates
    [fetchData(setRefreshing, setDataState, setLastRefreshed)], which
    builds the async function, and does not call it. *)
Definition exec (cb : Callback) (w : World State) : World State :=
  match cb with
  | EffectTick => let _ := fetchData in w
  end.

(** The body of the effect (lines 94-102), run with the state of the
    render it belongs to. *)
Definition effect (w : World State) : World State :=
  if negb (realtimeEnabled (view w)) then
    {| view := view w; env := env w; cleanup := None |}
  else
    let _ := fetchData in
    let '(interval, b) := setInterval EffectTick 5000 (env w) in
    {| view := view w; env := b; cleanup := Some interval |}.

Definition runCleanup (w : World State) : World State :=
  match cleanup w with
  | Some interval =>
      {| view := view w; env := clearInterval interval (env w); cleanup := None |}
  | None => w
  end.

(** After a handler has run, the component renders again; the effect has
    the dependency list [[realtimeEnabled]], so when that value changed
    the previous cleanup runs and then the effect. *)
Definition rerender (before : State) (w : World State) : World State :=
  if Bool.eqb (realtimeEnabled before) (realtimeEnabled (view w)) then w
  else effect (runCleanup w).

Definition handle (h : World State -> World State) (w : World State) : World State :=
  rerender (view w) (h w).

(** Mounting in a browser [b] with the rows given by the page. *)
Definition mount (data : list TimeSeriesData.t) (b : Browser) : World State :=
  effect {| view := initialState data; env := b; cleanup := None |}.

Definition unmount (w : World State) : World State := runCleanup w.

(** The password input (line 142). *)
Definition onPasswordChange (value : string) : World State -> World State :=
  handle (onView (setPassword value)).

(** The secret the password is compared with: [atob("YmFqZXI=")]. *)
Definition secret : option string := JS.atob "YmFqZXI=".

(** The Confirm button of the dialog (lines 153-160).  [atob] does not
    throw on this literal, so the [None] branch is never taken. *)
Definition onConfirm : World State -> World State :=
  handle (fun w =>
    if match secret with
       | Some s => String.eqb (password (view w)) s
       | None => false
       end
    then onView (setShowPasswordModal false) (onView (setRealtimeEnabled true) w)
    else onEnv (alert "Incorrect password") w).

(** The Cancel button and closing the dialog (lines 108, 147). *)
Definition onCancel : World State -> World State :=
  handle (onView (setShowPasswordModal false)).

(** The realtime toggle button (lines 199-205). *)
Definition onToggle : World State -> World State :=
  handle (fun w =>
    if realtimeEnabled (view w)
    then onView (setRealtimeEnabled false) w
    else onView (setShowPasswordModal true) w).

(** The threshold input (line 190). *)
Definition onThresholdChange (value : Z) : World State -> World State :=
  handle (onView (setThreshold value)).

(** The two states of the polling controller. *)
Definition Idle (w : World State) : Prop :=
  realtimeEnabled (view w) = false /\ cleanup w = None
  /\ intervals (env w) = [].

Definition Polling (w : World State) : Prop :=
  realtimeEnabled (view w) = true
  /\ exists id t,
      cleanup w = Some id
      /\ intervals (env w)
         = [(id, {| callback := EffectTick; delay := 5000; due := t |})].

(** A user who opens the dialog, types [pw] and confirms. *)
Definition enableWith (pw : string) (w : World State) : World State :=
  onConfirm (onPasswordChange pw (onToggle w)).

End Gated.

(** ** The always-on variant: polling from mount, all rows *)

Module AlwaysOn.

Record State : Type := mkState
  { threshold : Z;
    dataState : list TimeSeriesData.t;
    refreshing : bool;
    lastRefreshed : option Z }.

Definition setThreshold (v : Z) (s : State) : State :=
  mkState v (dataState s) (refreshing s) (lastRefreshed s).
Definition setDataState (v : list TimeSeriesData.t) (s : State) : State :=
  mkState (threshold s) v (refreshing s) (lastRefreshed s).
Definition setRefreshing (v : bool) (s : State) : State :=
  mkState (threshold s) (dataState s) v (lastRefreshed s).
Definition setLastRefreshed (v : option Z) (s : State) : State :=
  mkState (threshold s) (dataState s) (refreshing s) v.

Definition initialState (data : list TimeSeriesData.t) : State :=
  mkState 10 data false None.

Definition fetchData : AsyncFunction State :=
  fetchData allRowsQuery setRefreshing setDataState setLastRefreshed.

(** The interval callback (lines 391-393) calls [fetch], the async
    function that the effect built. *)
Definition exec (cb : Callback) (w : World State) : World State :=
  match cb with
  | EffectTick => let fetch := fetchData in call fetch w
  end.

(** The body of the effect (lines 389-394); its dependency list is empty,
    so it runs once, at mount. *)
Definition effect (w : World State) : World State :=
  let fetch := fetchData in
  let w := call fetch w in
  let '(interval, b) := setInterval EffectTick 5000 (env w) in
  {| view := view w; env := b; cleanup := Some interval |}.

Definition runCleanup (w : World State) : World State :=
  match cleanup w with
  | Some interval =>
      {| view := view w; env := clearInterval interval (env w); cleanup := None |}
  | None => w
  end.

Definition mount (data : list TimeSeriesData.t) (b : Browser) : World State :=
  effect {| view := initialState data; env := b; cleanup := None |}.

Definition unmount (w : World State) : World State := runCleanup w.

Definition onThresholdChange (value : Z) (w : World State) : World State :=
  onView (setThreshold value) w.

End AlwaysOn.

(** ** Vocabulary of the polling and query properties *)

(** A world whose only interval is the component's, next due at [d]. *)
Definition ticking {S} (id : nat) (d : Z) (w : World S) : Prop :=
  intervals (env w)
  = [(id, {| callback := EffectTick; delay := 5000; due := d |})].

(** The number of polls that fall in [dt] milliseconds. *)
Definition ticksIn (dt : Z) : nat := Z.to_nat (dt / 5000).

(** The [n] most recent rows of a table, oldest first. *)
Definition newestRows (instant : string -> Z) (n : nat) (rows : list TimeSeriesData.t)
  : list TimeSeriesData.t :=
  let ordered := JS.sort (Supabase.byCreatedAt instant true) rows in
  skipn (List.length ordered - n) ordered.

(** The instant of a [created_at] text in the form of [toISOString]. *)
Definition isoInstant (s : string) : Z :=
  match JS.parse s with
  | Some t => t
  | None => 0
  end.

(** A table of [n] rows, one every five seconds from 2024-07-01 08:00:00
    UTC, row [i] counting [i] people. *)
Definition sampleRow (i : nat) : TimeSeriesData.t :=
  {| TimeSeriesData.id := JS.numberToString (Z.of_nat i);
     TimeSeriesData.created_at := JS.toISOString (1719820800000 + 5000 * Z.of_nat i);
     TimeSeriesData.people_count := Z.of_nat i |}.

Definition sampleTable (n : nat) : list TimeSeriesData.t :=
  map sampleRow (seq 0 n).

(** ** Reading the CSV document back *)

(** The number of occurrences of [c] in [s]. *)
Fixpoint occurrences (c : ascii) (s : string) : nat :=
  match s with
  | EmptyString => 0%nat
  | String c' s' => ((if Ascii.eqb c' c then 1 else 0) + occurrences c s')%nat
  end.

(** The first field of a CSV line: the text between the first and the
    second double quote. *)
Definition firstField (line : string) : string :=
  beforeQuote (afterQuote line).

(** A whole number written in decimal, read digit by digit, with an
    optional minus sign; anything else is rejected. *)
Fixpoint readDigitsAll (acc : Z) (s : string) : option Z :=
  match s with
  | EmptyString => Some acc
  | String c s' =>
      match JS.digitValue c with
      | Some d => readDigitsAll (acc * 10 + d) s'
      | None => None
      end
  end.

Definition readDecimal (s : string) : option Z :=
  match s with
  | EmptyString => None
  | String c s' =>
      if Ascii.eqb c "-" then
        match s' with
        | EmptyString => None
        | _ => option_map Z.opp (readDigitsAll 0 s')
        end
      else readDigitsAll 0 s
  end.

(** A data line with the count text [count] and the date-time text
    [stamp]: each between double quotes, a comma between the two. *)
Definition lineOf (count stamp : string) : string :=
  String quoteChar (count ++ String quoteChar
    ("," ++ String quoteChar (stamp ++ String quoteChar EmptyString)))%string.

(** A data line read as a people count and an instant. *)
Definition readRow (line : string) : option (Z * Z) :=
  match readDecimal (firstField line), JS.parse (secondField line) with
  | Some v, Some t => Some (v, t)
  | _, _ => None
  end.

Fixpoint readRows (ls : list string) : option (list (Z * Z)) :=
  match ls with
  | [] => Some []
  | l :: ls' =>
      match readRow l, readRows ls' with
      | Some r, Some rs => Some (r :: rs)
      | _, _ => None
      end
  end.

(** A document read back: the header line is checked and dropped, and
    every other line is read as a row. *)
Definition readCsv (doc : string) : option (list (Z * Z)) :=
  match lines doc with
  | h :: ls => if String.eqb h headerLine then readRows ls else None
  | [] => None
  end.

(** What the export keeps of a point. *)
Definition exported (p : ChartData.t) : Z * Z :=
  (ChartData.value p, ChartData.timestamp p).

(** Points in strictly ascending order of time, each with a valid date. *)
Definition ascendingPoints : list ChartData.t :=
  [ChartData.mk "a" "08:00:00" 3 1719820800000;
   ChartData.mk "b" "08:00:05" 12 1719820805000;
   ChartData.mk "c" "08:00:10" (-1) 1719820810000].

(** ** Runs of the gated component *)

(** What can happen to the mounted component: the user's actions on its
    controls, and time passing. *)
Module GatedRun.

Inductive Event : Type :=
| Toggle
| PasswordChange (value : string)
| Confirm
| Cancel
| ThresholdChange (value : Z)
| Elapse (dt : Z).

Definition step (w : World Gated.State) (e : Event) : World Gated.State :=
  match e with
  | Toggle => Gated.onToggle w
  | PasswordChange value => Gated.onPasswordChange value w
  | Confirm => Gated.onConfirm w
  | Cancel => Gated.onCancel w
  | ThresholdChange value => Gated.onThresholdChange value w
  | Elapse dt => elapse Gated.exec dt w
  end.

Definition run (events : list Event) (w : World Gated.State) : World Gated.State :=
  fold_left step events w.

(** Realtime is on, and the one interval of the browser is the one the
    cleanup will clear, next due within five seconds. *)
Definition Armed (w : World Gated.State) : Prop :=
  Gated.realtimeEnabled (view w) = true
  /\ exists id d,
      cleanup w = Some id /\ ticking id d w
      /\ now (env w) < d <= now (env w) + 5000.

(** A user who tries the passwords [wrongs] in turn and then the right
    one. *)
Definition attempts (wrongs : list string) : list Event :=
  Toggle :: flat_map (fun pw => [PasswordChange pw; Confirm]) wrongs
         ++ [PasswordChange "bajer"; Confirm].

End GatedRun.

(** ** Runs of the always-on component *)

Module AlwaysOnRun.

Inductive Event : Type :=
| ThresholdChange (value : Z)
| Elapse (dt : Z)
| Respond (r : Supabase.Response).

Definition step (w : World AlwaysOn.State) (e : Event) : World AlwaysOn.State :=
  match e with
  | ThresholdChange value => AlwaysOn.onThresholdChange value w
  | Elapse dt => elapse AlwaysOn.exec dt w
  | Respond r => resume AlwaysOn.fetchData r w
  end.

Definition run (events : list Event) (w : World AlwaysOn.State)
  : World AlwaysOn.State :=
  fold_left step events w.

(** The time that passes in a run. *)
Definition elapsed (events : list Event) : Z :=
  fold_left (fun t e => match e with Elapse dt => t + Z.max 0 dt | _ => t end)
    events 0.

(** The clock, the readings and the refresh time that a run should leave,
    read off its events: time adds up; a response without error replaces
    the readings by its rows (none when [data] is null) and stamps the
    clock; anything else leaves both alone. *)
Definition shown (acc : Z * list TimeSeriesData.t * option Z) (e : Event)
  : Z * list TimeSeriesData.t * option Z :=
  let '(t, rows, last) := acc in
  match e with
  | ThresholdChange _ => (t, rows, last)
  | Elapse dt => (t + Z.max 0 dt, rows, last)
  | Respond r =>
      match Supabase.error r with
      | Some _ => (t, rows, last)
      | None =>
          (t, match Supabase.data r with Some d => d | None => [] end, Some t)
      end
  end.

End AlwaysOnRun.

(** What no event of a run changes: the queries sent, the console, and the
    readings, [refreshing] and [lastRefreshed]. *)
Definition untouched (w w' : World Gated.State) : Prop :=
  requests (env w') = requests (env w)
  /\ console (env w') = console (env w)
  /\ Gated.dataState (view w') = Gated.dataState (view w)
  /\ Gated.refreshing (view w') = Gated.refreshing (view w)
  /\ Gated.lastRefreshed (view w') = Gated.lastRefreshed (view w).

(** What a run of the always-on component mounted at [t0] keeps true after
    [T] milliseconds: the clock, the one interval and its next due time,
    the cleanup, and a query sent at mount and at every full five
    seconds. *)
Definition onSchedule (t0 T : Z) (w : World AlwaysOn.State) : Prop :=
  now (env w) = t0 + T
  /\ ticking 1 (t0 + 5000 * (1 + T / 5000)) w
  /\ cleanup w = Some 1%nat
  /\ requests (env w) = repeat allRowsQuery (Datatypes.S (ticksIn T)).
(* ================================================================== *)
(** * Part II: properties *)
(* ================================================================== *)

(** ** Threshold alert *)

Lemma isThresholdExceeded_cons p ps th :
  isThresholdExceeded (p :: ps) th
  = (th <? ChartData.value p) || isThresholdExceeded ps th.
Proof. reflexivity. Qed.

Lemma fold_left_max_ltb (vs : list Z) (a th : Z) :
  (th <? fold_left Z.max vs a) = (th <? a) || existsb (fun v => th <? v) vs.
Proof.
  revert a; induction vs as [|v vs IH]; intros a; simpl.
  - now rewrite orb_false_r.
  - rewrite IH, orb_assoc. f_equal.
    destruct (Z.ltb_spec th (Z.max a v)), (Z.ltb_spec th a), (Z.ltb_spec th v);
      simpl; auto; lia.
Qed.

(** C3: [isThresholdExceeded] is true exactly when some point has a value
    strictly above the threshold; on a non-empty sequence that is when the
    largest value is strictly above the threshold; and it is false on the
    empty sequence for every threshold. *)
Theorem isThresholdExceeded_spec :
  (forall points threshold,
      isThresholdExceeded points threshold = true <->
      exists p, In p points /\ ChartData.value p > threshold)
  /\ (forall p ps threshold,
         isThresholdExceeded (p :: ps) threshold = (threshold <? maxValue p ps))
  /\ (forall threshold, isThresholdExceeded [] threshold = false).
Proof.
  split; [|split].
  - intros points th. unfold isThresholdExceeded, JS.some.
    rewrite existsb_exists. split; intros [p [Hin Hp]]; exists p; split; auto.
    + apply Z.ltb_lt in Hp. lia.
    + apply Z.ltb_lt. lia.
  - intros p ps th. unfold maxValue. rewrite fold_left_max_ltb.
    rewrite isThresholdExceeded_cons. f_equal.
    unfold isThresholdExceeded, JS.some.
    induction ps as [|q ps IH]; simpl; [reflexivity | now rewrite IH].
  - reflexivity.
Qed.

(** ** Latest value *)

Lemma at_last {A} (l : list A) (x : A) : JS.at_ (l ++ [x]) (-1) = Some x.
Proof.
  unfold JS.at_. rewrite List.length_app. simpl List.length.
  replace (-1 <? 0) with true by reflexivity.
  replace (Z.of_nat (List.length l + 1) + -1) with (Z.of_nat (List.length l)) by lia.
  destruct (Z.ltb_spec (Z.of_nat (List.length l)) 0); [lia|].
  destruct (Z.leb_spec (Z.of_nat (List.length l + 1)) (Z.of_nat (List.length l))); [lia|].
  simpl. rewrite Nat2Z.id, nth_error_app2, Nat.sub_diag; auto.
Qed.

(** C5: [latestValue] is the value of the last point of the chart-ordered
    sequence, and the no-data marker ["N/A"] on the empty sequence. *)
Theorem latestValue_spec :
  latestValue [] = inr "N/A"
  /\ forall points p, latestValue (points ++ [p]) = inl (ChartData.value p).
Proof.
  split; [reflexivity|].
  intros points p. unfold latestValue. now rewrite at_last.
Qed.

(** The display points are the rows, one for one and in the same order, so
    the latest value is the people count of the last row. *)
Lemma chartData_values {DateTime} (fromISO : string -> DateTime) toFormat toJSDate rows :
  map ChartData.value (chartData DateTime fromISO toFormat toJSDate rows)
  = map TimeSeriesData.people_count rows
  /\ List.length (chartData DateTime fromISO toFormat toJSDate rows) = List.length rows.
Proof.
  unfold chartData. rewrite map_map, length_map. split; reflexivity.
Qed.

Lemma latestValue_last_row {DateTime} (fromISO : string -> DateTime) toFormat toJSDate rows r :
  latestValue (chartData DateTime fromISO toFormat toJSDate (rows ++ [r]))
  = inl (TimeSeriesData.people_count r).
Proof.
  unfold chartData, latestValue. rewrite map_app. cbn [map].
  now rewrite at_last.
Qed.

(** In a chart sequence in ascending order of time, the last point is at or
    after every other one. *)
Lemma last_is_latest points p :
  StronglySorted (fun a b => ChartData.timestamp a <= ChartData.timestamp b)
    (points ++ [p]) ->
  Forall (fun q => ChartData.timestamp q <= ChartData.timestamp p) points.
Proof.
  induction points as [|q points IH]; intros H; [constructor|].
  cbn [app] in H. inversion H as [|? ? Hs Hq]; subst.
  constructor; [|now apply IH].
  rewrite Forall_forall in Hq. apply Hq, in_or_app. right. now left.
Qed.

(** ** Table order *)

Section SortFacts.
Context {A : Type} (comparefn : A -> A -> Z).

Lemma insert_perm x l : Permutation (x :: l) (JS.insert comparefn x l).
Proof.
  induction l as [|y l IH]; simpl; [reflexivity|].
  destruct (comparefn x y <=? 0); [reflexivity|].
  rewrite perm_swap. now apply perm_skip.
Qed.

Lemma sort_perm l : Permutation l (JS.sort comparefn l).
Proof.
  induction l as [|x l IH]; simpl; [constructor|].
  rewrite <- insert_perm. now apply perm_skip.
Qed.
End SortFacts.

Lemma insert_sorted x l :
  StronglySorted (fun a b => ts a >= ts b) l ->
  StronglySorted (fun a b => ts a >= ts b) (JS.insert byTimestampDesc x l).
Proof.
  induction 1 as [|y l Hs IH Hy]; simpl.
  - repeat constructor.
  - unfold byTimestampDesc at 1. fold (ts y) (ts x).
    destruct (Z.leb_spec (ts y - ts x) 0) as [Hxy|Hxy].
    + constructor; [now constructor|].
      constructor; [lia|].
      rewrite Forall_forall in *. intros z Hz. specialize (Hy z Hz). lia.
    + constructor; [exact IH|].
      rewrite Forall_forall in *. intros z Hz.
      apply (Permutation_in _ (Permutation_sym (insert_perm _ x l))) in Hz.
      destruct Hz as [<-|Hz]; [lia | now apply Hy].
Qed.

Lemma tableData_sorted points :
  StronglySorted (fun a b => ts a >= ts b) (tableData points).
Proof.
  induction points as [|p ps IH]; simpl; [constructor|].
  now apply insert_sorted.
Qed.

Lemma insert_atTime t x l :
  filter (atTime t) (JS.insert byTimestampDesc x l)
  = if atTime t x then x :: filter (atTime t) l else filter (atTime t) l.
Proof.
  induction l as [|y l IH]; simpl; [reflexivity|].
  unfold byTimestampDesc at 1. fold (ts y) (ts x).
  destruct (Z.leb_spec (ts y - ts x) 0) as [Hxy|Hxy]; simpl; [reflexivity|].
  rewrite IH. unfold atTime.
  destruct (Z.eqb_spec (ts y) t), (Z.eqb_spec (ts x) t); try reflexivity; lia.
Qed.

Lemma tableData_stable points t :
  filter (atTime t) (tableData points) = filter (atTime t) points.
Proof.
  induction points as [|p ps IH]; simpl; [reflexivity|].
  fold (tableData ps). rewrite insert_atTime, IH. reflexivity.
Qed.

(** The order of the table does not depend on how the sort is carried
    out: two descending lists with the same points at every instant, in the
    same order, are equal. *)
Lemma sorted_stable_unique l1 : forall l2,
  StronglySorted (fun a b => ts a >= ts b) l1 ->
  StronglySorted (fun a b => ts a >= ts b) l2 ->
  (forall t, filter (atTime t) l1 = filter (atTime t) l2) ->
  l1 = l2.
Proof.
  assert (Hin : forall (l l' : list ChartData.t) x,
             (forall t, filter (atTime t) l = filter (atTime t) l') ->
             In x l -> In x l').
  { intros l l' x H Hx.
    assert (Hf : In x (filter (atTime (ts x)) l)).
    { apply filter_In. split; [exact Hx|]. unfold atTime. apply Z.eqb_refl. }
    rewrite H in Hf. now apply filter_In in Hf. }
  induction l1 as [|x l1 IH]; intros l2 H1 H2 Hf.
  - destruct l2 as [|y l2]; [reflexivity|].
    exfalso. apply (Hin (y :: l2) [] y); [intros t; now rewrite Hf | now left].
  - destruct l2 as [|y l2].
    { exfalso. apply (Hin (x :: l1) [] x Hf). now left. }
    inversion H1 as [|? ? H1' Hx]; subst. inversion H2 as [|? ? H2' Hy]; subst.
    rewrite Forall_forall in Hx, Hy.
    assert (Exy : ts x = ts y).
    { assert (Hxl : In x (y :: l2)) by (apply (Hin (x :: l1)); [exact Hf | now left]).
      assert (Hyl : In y (x :: l1)).
      { apply (Hin (y :: l2)); [intros t; now rewrite Hf | now left]. }
      destruct Hxl as [->|Hxl]; [reflexivity|].
      destruct Hyl as [->|Hyl]; [reflexivity|].
      specialize (Hx y Hyl). specialize (Hy x Hxl). lia. }
    pose proof (Hf (ts x)) as Hhead. cbn [filter] in Hhead.
    replace (atTime (ts x) x) with true in Hhead
      by (unfold atTime; now rewrite Z.eqb_refl).
    replace (atTime (ts x) y) with true in Hhead
      by (unfold atTime; now rewrite Exy, Z.eqb_refl).
    injection Hhead as -> Htail.
    f_equal. apply IH; try assumption.
    intros t. specialize (Hf t). cbn [filter] in Hf.
    destruct (atTime t y); [now injection Hf | exact Hf].
Qed.

Lemma sorted_nodup_strict l :
  StronglySorted (fun a b => ts a >= ts b) l ->
  NoDup (map ts l) ->
  StronglySorted (fun a b => ts a > ts b) l.
Proof.
  induction 1 as [|x l Hs IH Hx]; intros Hnd; [constructor|].
  simpl in Hnd. inversion Hnd as [|? ? Hnin Hnd']; subst.
  constructor; [now apply IH|].
  rewrite Forall_forall in *. intros y Hy.
  specialize (Hx y Hy).
  assert (ts x <> ts y) by (intros E; apply Hnin; rewrite E; now apply in_map).
  lia.
Qed.

(** C4, as stated, fails: with two points at the same instant the table is
    not strictly descending by timestamp. *)
Lemma tableData_ties_not_strict :
  ~ StronglySorted (fun a b => ts a > ts b) (tableData tiePoints).
Proof.
  vm_compute. intros H.
  inversion H as [|? ? _ Hall]; subst.
  inversion Hall as [|? ? Hgt _]; subst.
  vm_compute in Hgt. discriminate.
Qed.

(** C4 (amended): the table is a permutation of the chart sequence, sorted
    descending by timestamp (each point is at or after every later row);
    points with equal timestamps keep their input order; and when the
    timestamps are pairwise distinct the order is strictly descending. *)
Theorem tableData_spec (points : list ChartData.t) :
  Permutation points (tableData points)
  /\ StronglySorted (fun a b => ts a >= ts b) (tableData points)
  /\ (forall t, filter (atTime t) (tableData points) = filter (atTime t) points)
  /\ (NoDup (map ts points) ->
      StronglySorted (fun a b => ts a > ts b) (tableData points)).
Proof.
  split; [apply sort_perm|].
  split; [apply tableData_sorted|].
  split; [intros t; apply tableData_stable|].
  intros Hnd. apply sorted_nodup_strict; [apply tableData_sorted|].
  eapply Permutation_NoDup; [|exact Hnd].
  apply Permutation_map, sort_perm.
Qed.

(** X23: the table is determined by what it promises, not by how the sort
    is carried out: any list in descending order of time that keeps, for
    every instant, the points of that instant in chart order is the
    table. *)
Lemma tableData_unique points table :
  StronglySorted (fun a b => ts a >= ts b) table ->
  (forall t, filter (atTime t) table = filter (atTime t) points) ->
  table = tableData points.
Proof.
  intros Hs Hf. apply sorted_stable_unique; [exact Hs | apply tableData_sorted |].
  intros t. now rewrite Hf, tableData_stable.
Qed.

Lemma tableData_spec_witness :
  NoDup (map ts scenarioPoints)
  /\ StronglySorted (fun a b => ts a > ts b) (tableData scenarioPoints).
Proof.
  assert (Hnd : NoDup (map ts scenarioPoints)).
  { repeat constructor; simpl; intuition discriminate. }
  split; [exact Hnd|].
  exact (proj2 (proj2 (proj2 (tableData_spec scenarioPoints))) Hnd).
Defined.

Example scenario_table :
  tableData scenarioPoints = rev scenarioPoints
  /\ isThresholdExceeded scenarioPoints 10 = true
  /\ latestValue scenarioPoints = inl 12.
Proof. repeat split. Qed.

Example scenario_empty :
  tableData [] = [] /\ isThresholdExceeded [] 10 = false
  /\ latestValue [] = inr "N/A".
Proof. repeat split. Qed.

(** ** Dates: [toISOString] and reading it back *)

Module DateFacts.
Import JS.

Lemma DayFromYear_succ y : DayFromYear (y + 1) = DayFromYear y + DaysInYear y.
Proof.
  unfold DayFromYear, DaysInYear.
  destruct (Z.eqb_spec (y mod 4) 0), (Z.eqb_spec (y mod 100) 0),
    (Z.eqb_spec (y mod 400) 0); cbn [negb];
    Z.to_euclidean_division_equations; lia.
Qed.

Lemma DaysInYear_cases y : DaysInYear y = 365 \/ DaysInYear y = 366.
Proof.
  unfold DaysInYear.
  destruct (negb (y mod 4 =? 0)), (negb (y mod 100 =? 0)),
    (negb (y mod 400 =? 0)); auto.
Qed.

(** [YearFromTime] is the year of ECMAScript: the one whose first day is
    at or before the day of [t] and whose successor starts after it. *)
Lemma YearFromTime_spec t :
  DayFromYear (YearFromTime t) <= Day t < DayFromYear (YearFromTime t + 1).
Proof.
  unfold YearFromTime. generalize (Day t). intros d.
  set (y0 := 1970 + 400 * d / 146097).
  destruct (Z.ltb_spec d (DayFromYear y0)) as [H1|H1];
    [|destruct (Z.leb_spec (DayFromYear (y0 + 1)) d) as [H2|H2]].
  - replace (y0 - 1 + 1) with y0 by lia. split; [|lia].
    unfold DayFromYear in *. subst y0.
    Z.to_euclidean_division_equations; lia.
  - split; [lia|].
    unfold DayFromYear in *. subst y0.
    Z.to_euclidean_division_equations; lia.
  - lia.
Qed.

Lemma DayFromYear_mono y y' : y <= y' -> DayFromYear y <= DayFromYear y'.
Proof.
  intros H. unfold DayFromYear. Z.to_euclidean_division_equations; lia.
Qed.

(** The year is the largest one that starts at or before [t]. *)
Lemma YearFromTime_largest t y :
  TimeFromYear y <= t -> y <= YearFromTime t.
Proof.
  intros H. destruct (Z.le_gt_cases y (YearFromTime t)) as [|Hgt]; [assumption|].
  exfalso. pose proof (YearFromTime_spec t) as [_ Hup].
  assert (DayFromYear (YearFromTime t + 1) <= DayFromYear y)
    by (apply DayFromYear_mono; lia).
  unfold TimeFromYear, Day, msPerDay in *.
  Z.to_euclidean_division_equations; nia.
Qed.

Lemma DayWithinYear_range t :
  0 <= DayWithinYear t < DaysInYear (YearFromTime t).
Proof.
  unfold DayWithinYear. pose proof (YearFromTime_spec t) as H.
  rewrite DayFromYear_succ in H. lia.
Qed.

Lemma InLeapYear_days t : DaysInYear (YearFromTime t) = 365 + InLeapYear t.
Proof.
  unfold InLeapYear.
  destruct (DaysInYear_cases (YearFromTime t)) as [-> | ->]; reflexivity.
Qed.

Lemma InLeapYear_cases t : InLeapYear t = 0 \/ InLeapYear t = 1.
Proof. unfold InLeapYear. destruct (_ =? _); auto. Qed.

Lemma MonthFromTime_range t : 0 <= MonthFromTime t <= 11.
Proof.
  unfold MonthFromTime.
  repeat match goal with |- context [if ?b then _ else _] => destruct b end; lia.
Qed.

(** The date is a day of its month, and month and date give back the day
    of the year. *)
Lemma DateFromTime_range t :
  1 <= DateFromTime t
  <= monthStart (InLeapYear t) (MonthFromTime t + 1)
     - monthStart (InLeapYear t) (MonthFromTime t).
Proof.
  pose proof (DayWithinYear_range t) as Hd.
  rewrite InLeapYear_days in Hd.
  unfold DateFromTime, MonthFromTime.
  destruct (InLeapYear_cases t) as [E | E]; rewrite E in *;
    repeat match goal with
      | |- context [if ?a <? ?b then _ else _] => destruct (Z.ltb_spec a b)
      end; cbn; lia.
Qed.

Lemma YearFromTime_range t :
  validTime t -> -271821 <= YearFromTime t <= 275760.
Proof.
  intros Hv. pose proof (YearFromTime_spec t) as Hy.
  assert (Hd : -100000000 <= Day t <= 100000000).
  { unfold validTime, maxTime, Day, msPerDay in *.
    Z.to_euclidean_division_equations; lia. }
  revert Hy. generalize (YearFromTime t) (Day t) Hd. clear.
  intros y d Hd. unfold DayFromYear.
  Z.to_euclidean_division_equations; lia.
Qed.

Lemma time_fields t :
  0 <= HourFromTime t <= 23 /\ 0 <= MinFromTime t <= 59
  /\ 0 <= SecFromTime t <= 59 /\ 0 <= msFromTime t <= 999
  /\ MakeTime (HourFromTime t) (MinFromTime t) (SecFromTime t) (msFromTime t)
     = TimeWithinDay t.
Proof.
  unfold HourFromTime, MinFromTime, SecFromTime, msFromTime, MakeTime,
    TimeWithinDay, msPerHour, msPerMinute, msPerSecond, msPerDay.
  Z.to_euclidean_division_equations; lia.
Qed.

Lemma MakeDay_fields t :
  MakeDay (YearFromTime t) (MonthFromTime t) (DateFromTime t) = Day t.
Proof.
  unfold MakeDay, DateFromTime. fold (InLeapYear t).
  unfold DayWithinYear. lia.
Qed.

Lemma MakeDate_Day t : MakeDate (Day t) (TimeWithinDay t) = t.
Proof.
  unfold MakeDate, Day, TimeWithinDay, msPerDay.
  Z.to_euclidean_division_equations; lia.
Qed.

(** *** Digits *)

Lemma digitValue_digitChar d :
  0 <= d < 10 -> digitValue (digitChar d) = Some d.
Proof.
  intros H.
  assert (C : d = 0 \/ d = 1 \/ d = 2 \/ d = 3 \/ d = 4 \/ d = 5 \/ d = 6
              \/ d = 7 \/ d = 8 \/ d = 9) by lia.
  repeat (destruct C as [-> | C]; [reflexivity|]). now subst.
Qed.

Lemma readDigits_digits w : forall n acc rest,
  readDigits w acc (digits w n ++ rest)
  = Some (acc * 10 ^ Z.of_nat w + n mod 10 ^ Z.of_nat w, rest).
Proof.
  induction w as [|w IH]; intros n acc rest.
  - cbn [digits readDigits append]. rewrite Z.mod_1_r. f_equal. f_equal. cbn. lia.
  - cbn [digits readDigits append].
    rewrite digitValue_digitChar by (apply Z.mod_pos_bound; lia).
    rewrite IH. f_equal. f_equal.
    rewrite Nat2Z.inj_succ, Z.pow_succ_r by lia.
    rewrite (Z.mul_comm 10), Z.rem_mul_r by lia. lia.
Qed.

Lemma readField w n rest :
  0 <= n < 10 ^ Z.of_nat w ->
  readDigits w 0 (digits w n ++ rest) = Some (n, rest).
Proof.
  intros H. rewrite readDigits_digits, Z.mod_small by assumption.
  reflexivity.
Qed.

Lemma readChar_lit c rest : readChar c (String c EmptyString ++ rest) = Some rest.
Proof. cbn. now rewrite Ascii.eqb_refl. Qed.

Lemma readYear_digit d s :
  0 <= d < 10 ->
  readYear (String (digitChar d) s) = readDigits 4 0 (String (digitChar d) s).
Proof.
  intros H.
  assert (C : d = 0 \/ d = 1 \/ d = 2 \/ d = 3 \/ d = 4 \/ d = 5 \/ d = 6
              \/ d = 7 \/ d = 8 \/ d = 9) by lia.
  repeat (destruct C as [-> | C]; [reflexivity|]). now subst.
Qed.

Lemma readYear_yearField y rest :
  -999999 <= y <= 999999 ->
  readYear (yearField y ++ rest) = Some (y, rest).
Proof.
  intros Hy. unfold yearField.
  destruct (Z.leb_spec 0 y) as [H0|H0];
    [destruct (Z.leb_spec y 9999) as [H1|H1]|]; cbn [andb].
  - change (digits 4 y ++ rest)%string
      with (String (digitChar ((y / 10 ^ 3) mod 10)) (digits 3 y ++ rest)).
    rewrite readYear_digit by (apply Z.mod_pos_bound; lia).
    change (String (digitChar ((y / 10 ^ 3) mod 10)) (digits 3 y ++ rest))
      with (digits 4 y ++ rest)%string.
    apply readField. cbn. lia.
  - destruct (Z.ltb_spec y 0); [lia|].
    cbn [append readYear]. apply readField. cbn. lia.
  - destruct (Z.ltb_spec y 0); [|lia].
    cbn [append readYear]. rewrite readField by (cbn; lia).
    destruct (Z.eqb_spec (- y) 0); [lia|].
    f_equal. f_equal. lia.
Qed.

(** Reading back what [toISOString] wrote gives the time value. *)
Lemma parse_toISOString t : validTime t -> parse (toISOString t) = Some t.
Proof.
  intros Hv.
  pose proof (YearFromTime_range t Hv) as Hy.
  pose proof (MonthFromTime_range t) as Hm.
  pose proof (DateFromTime_range t) as Hd.
  pose proof (time_fields t) as (Hh & Hmi & Hs & Hms & Htime).
  assert (Hd31 : DateFromTime t <= 31).
  { destruct Hd as [_ Hd]. eapply Z.le_trans; [exact Hd|].
    assert (C : MonthFromTime t = 0 \/ MonthFromTime t = 1 \/ MonthFromTime t = 2
                \/ MonthFromTime t = 3 \/ MonthFromTime t = 4 \/ MonthFromTime t = 5
                \/ MonthFromTime t = 6 \/ MonthFromTime t = 7 \/ MonthFromTime t = 8
                \/ MonthFromTime t = 9 \/ MonthFromTime t = 10 \/ MonthFromTime t = 11)
      by lia.
    destruct (InLeapYear_cases t) as [E|E]; rewrite E;
      repeat (destruct C as [-> | C]; [cbn; lia|]); rewrite C; cbn; lia. }
  unfold parse, toISOString.
  rewrite readYear_yearField by lia. cbn [bind].
  rewrite readChar_lit. cbn [bind].
  rewrite readField by (cbn; lia). cbn [bind].
  rewrite readChar_lit. cbn [bind].
  rewrite readField by (cbn; lia). cbn [bind].
  rewrite readChar_lit. cbn [bind].
  rewrite readField by (cbn; lia). cbn [bind].
  rewrite readChar_lit. cbn [bind].
  rewrite readField by (cbn; lia). cbn [bind].
  rewrite readChar_lit. cbn [bind].
  rewrite readField by (cbn; lia). cbn [bind].
  rewrite readChar_lit. cbn [bind].
  rewrite readField by (cbn; lia). cbn [bind].
  change (readChar "Z" "Z") with (Some EmptyString). cbn [bind].
  replace (MonthFromTime t + 1 - 1) with (MonthFromTime t) by lia.
  unfold DaysInMonth. fold (InLeapYear t).
  rewrite MakeDay_fields, Htime, MakeDate_Day.
  repeat match goal with
    | |- context [?a <=? ?b] =>
        destruct (Z.leb_spec a b); [|lia]
    end.
  cbn [andb orb]. unfold TimeClip.
  destruct (Z.leb_spec (Z.abs t) maxTime); [reflexivity|].
  unfold validTime in Hv. lia.
Qed.

End DateFacts.

(** ** CSV export *)

Section Avoids.
Variable c : ascii.

Lemma append_assoc (s r u : string) : ((s ++ r) ++ u = s ++ (r ++ u))%string.
Proof. induction s as [|a s IH]; cbn [append]; [reflexivity | now rewrite IH]. Qed.

Lemma avoids_app s r : avoids c (s ++ r) = avoids c s && avoids c r.
Proof.
  induction s as [|a s IH]; cbn [append avoids]; [reflexivity|].
  now rewrite IH, andb_assoc.
Qed.

(** A character that is not a digit does not occur among digits. *)
Hypothesis not_digit : JS.digitValue c = None.

Lemma avoids_digitChar d : 0 <= d < 10 -> Ascii.eqb (JS.digitChar d) c = false.
Proof.
  intros H. destruct (Ascii.eqb_spec (JS.digitChar d) c) as [E|]; [|reflexivity].
  rewrite <- E, DateFacts.digitValue_digitChar in not_digit by assumption.
  discriminate.
Qed.

Lemma avoids_digits w n : avoids c (JS.digits w n) = true.
Proof.
  induction w as [|w IH]; cbn [JS.digits avoids]; [reflexivity|].
  rewrite IH, avoids_digitChar by (apply Z.mod_pos_bound; lia). reflexivity.
Qed.

Lemma avoids_uint d : avoids c (NilEmpty.string_of_uint d) = true.
Proof.
  induction d; cbn [NilEmpty.string_of_uint avoids]; [reflexivity|..];
    rewrite IHd, andb_true_r;
    match goal with
    | |- negb (Ascii.eqb ?a c) = true =>
        destruct (Ascii.eqb_spec a c) as [E|]; [|reflexivity];
        rewrite <- E in not_digit; discriminate
    end.
Qed.

(** Nor in a number written in decimal, unless it is the minus sign. *)
Lemma avoids_numberToString n :
  c <> "-"%char -> avoids c (JS.numberToString n) = true.
Proof.
  intros Hminus.
  assert (H0 : avoids c "0" = true).
  { cbn [avoids]. destruct (Ascii.eqb_spec "0" c) as [E|]; [|reflexivity].
    rewrite <- E in not_digit. discriminate. }
  unfold JS.numberToString, NilZero.string_of_int, NilZero.string_of_uint.
  destruct (Z.to_int n) as [d|d].
  - destruct d; [exact H0 | apply (avoids_uint (_ _)) ..].
  - cbn [avoids]. destruct (Ascii.eqb_spec "-" c) as [E|]; [congruence|].
    cbn [negb andb].
    destruct d; [exact H0 | apply (avoids_uint (_ _)) ..].
Qed.

(** Nor in a date-time string, whose other characters are [-+T:.Z]. *)
Lemma avoids_toISOString t :
  avoids c "-+T:.Z" = true -> avoids c (JS.toISOString t) = true.
Proof.
  intros Hp. cbn [avoids] in Hp.
  repeat (apply andb_prop in Hp as [? Hp]).
  unfold JS.toISOString, JS.yearField.
  destruct (_ && _); [|destruct (_ <? _)];
    cbn [avoids]; repeat rewrite avoids_app; cbn [avoids];
    repeat rewrite avoids_digits;
    repeat match goal with H : negb _ = true |- _ => rewrite H; clear H end;
    reflexivity.
Qed.

Lemma afterChar_avoids s r :
  avoids c s = true ->
  forall after, (forall a u, after (String a u) = if Ascii.eqb a c then u else after u) ->
  after (s ++ String c r)%string = r.
Proof.
  intros Hs after Hafter. induction s as [|a s IH]; cbn [append].
  - now rewrite Hafter, Ascii.eqb_refl.
  - cbn [avoids] in Hs. apply andb_prop in Hs as [Ha Hs].
    rewrite Hafter. destruct (Ascii.eqb a c); [discriminate|]. now apply IH.
Qed.

End Avoids.

Lemma lines_avoids s : avoids "010" s = true -> lines s = [s].
Proof.
  induction s as [|a s IH]; cbn [avoids lines]; [reflexivity|].
  intros H. apply andb_prop in H as [Ha Hs].
  destruct (Ascii.eqb a "010"); [discriminate|]. now rewrite IH.
Qed.

Lemma lines_app_newline s r :
  avoids "010" s = true -> lines (s ++ newline ++ r) = s :: lines r.
Proof.
  induction s as [|a s IH]; cbn [avoids].
  - reflexivity.
  - intros H. apply andb_prop in H as [Ha Hs].
    cbn [append lines]. destruct (Ascii.eqb a "010"); [discriminate|].
    now rewrite IH.
Qed.

Lemma lines_join l ls :
  Forall (fun s => avoids "010" s = true) (l :: ls) ->
  lines (JS.join newline (l :: ls)) = l :: ls.
Proof.
  revert l; induction ls as [|l' ls IH]; intros l H.
  - cbn [JS.join]. apply lines_avoids. now inversion H.
  - inversion H as [|? ? Hl Hr]; subst.
    change (JS.join newline (l :: l' :: ls))
      with (l ++ newline ++ JS.join newline (l' :: ls))%string.
    rewrite lines_app_newline by assumption. now rewrite IH.
Qed.

Lemma afterQuote_avoids s r :
  avoids quoteChar s = true -> afterQuote (s ++ String quoteChar r) = r.
Proof.
  intros H. apply (afterChar_avoids quoteChar s r H afterQuote). reflexivity.
Qed.

Lemma beforeQuote_avoids s r :
  avoids quoteChar s = true -> beforeQuote (s ++ String quoteChar r) = s.
Proof.
  induction s as [|a s IH]; cbn [avoids append beforeQuote].
  - reflexivity.
  - intros H. apply andb_prop in H as [Ha Hs].
    destruct (Ascii.eqb a quoteChar); [discriminate|]. now rewrite IH.
Qed.

Lemma csvLine_header : csvLine header = headerLine.
Proof. reflexivity. Qed.

Lemma csvLine_row p :
  csvLine [JS.CNum (ChartData.value p);
           JS.CStr (JS.toISOString (ChartData.timestamp p))] = dataLine p.
Proof.
  unfold csvLine, dataLine, quoted. cbn [map JS.join JS.ToString append].
  f_equal. rewrite !append_assoc. reflexivity.
Qed.

Lemma csv_lines_eq chartData :
  map csvLine (header :: rows chartData) = headerLine :: map dataLine chartData.
Proof.
  cbn [map]. rewrite csvLine_header. f_equal.
  unfold rows. rewrite map_map. apply map_ext. intros p. apply csvLine_row.
Qed.

Lemma dataLine_no_newline p : avoids "010" (dataLine p) = true.
Proof.
  unfold dataLine. cbn [avoids append].
  repeat (rewrite avoids_app; cbn [avoids append]).
  rewrite avoids_numberToString, avoids_toISOString by (reflexivity || discriminate).
  reflexivity.
Qed.

Lemma secondField_dataLine p :
  secondField (dataLine p) = JS.toISOString (ChartData.timestamp p).
Proof.
  unfold secondField, dataLine.
  assert (Q : forall s, afterQuote (String quoteChar s) = s) by reflexivity.
  rewrite Q.
  rewrite afterQuote_avoids by (apply avoids_numberToString; [reflexivity | discriminate]).
  change (afterQuote ("," ++ String quoteChar ?s)) with s.
  apply beforeQuote_avoids, avoids_toISOString; reflexivity.
Qed.

Lemma firstField_dataLine p :
  firstField (dataLine p) = JS.numberToString (ChartData.value p).
Proof.
  unfold firstField, dataLine.
  assert (Q : forall s, afterQuote (String quoteChar s) = s) by reflexivity.
  rewrite Q. apply beforeQuote_avoids, avoids_numberToString;
    [reflexivity | discriminate].
Qed.

(** *** Decimal texts read back *)

Lemma readDigitsAll_uint l : forall acc : positive,
  readDigitsAll (Z.pos acc) (NilEmpty.string_of_uint l)
  = Some (Z.pos (Pos.of_uint_acc l acc)).
Proof.
  induction l; intros acc;
    cbn [NilEmpty.string_of_uint readDigitsAll Pos.of_uint_acc];
    [reflexivity|..];
    match goal with
    | |- context [JS.digitValue ?c] =>
        let v := eval vm_compute in (JS.digitValue c) in
        change (JS.digitValue c) with v
    end;
    cbv iota beta; rewrite <- IHl; f_equal; lia.
Qed.

Lemma readDigitsAll_uint0 l :
  readDigitsAll 0 (NilEmpty.string_of_uint l) = Some (Z.of_N (Pos.of_uint l)).
Proof.
  induction l;
    cbn [NilEmpty.string_of_uint readDigitsAll Pos.of_uint];
    [reflexivity|..];
    match goal with
    | |- context [JS.digitValue ?c] =>
        let v := eval vm_compute in (JS.digitValue c) in
        change (JS.digitValue c) with v
    end;
    cbv iota beta;
    [exact IHl | apply (readDigitsAll_uint l) ..].
Qed.

Lemma readDigitsAll_positive q :
  readDigitsAll 0 (NilEmpty.string_of_uint (Pos.to_uint q)) = Some (Z.pos q).
Proof.
  rewrite readDigitsAll_uint0, DecimalPos.Unsigned.of_to. reflexivity.
Qed.

Lemma string_of_positive q :
  NilZero.string_of_uint (Pos.to_uint q)
  = NilEmpty.string_of_uint (Pos.to_uint q).
Proof.
  pose proof (DecimalPos.Unsigned.to_uint_nonnil q) as H.
  unfold NilZero.string_of_uint. now destruct (Pos.to_uint q).
Qed.

(** A count written in decimal reads back, digit by digit, as the
    count. *)
Lemma readDecimal_numberToString n :
  readDecimal (JS.numberToString n) = Some n.
Proof.
  unfold JS.numberToString. destruct n as [|q|q]; cbn [Z.to_int NilZero.string_of_int].
  - reflexivity.
  - rewrite string_of_positive. pose proof (readDigitsAll_positive q) as H.
    destruct (NilEmpty.string_of_uint (Pos.to_uint q)) as [|c s]; [discriminate|].
    unfold readDecimal. destruct (Ascii.eqb_spec c "-") as [->|_]; [discriminate|].
    exact H.
  - rewrite string_of_positive. pose proof (readDigitsAll_positive q) as H.
    unfold readDecimal. rewrite Ascii.eqb_refl.
    destruct (NilEmpty.string_of_uint (Pos.to_uint q)) as [|c s]; [discriminate|].
    now rewrite H.
Qed.

Lemma dataLine_lineOf p :
  dataLine p
  = lineOf (JS.numberToString (ChartData.value p))
      (JS.toISOString (ChartData.timestamp p)).
Proof. reflexivity. Qed.

Lemma csv_join chartData :
  csv chartData = JS.join newline (headerLine :: map dataLine chartData).
Proof. unfold csv. now rewrite csv_lines_eq. Qed.

Lemma csv_lines chartData :
  lines (csv chartData) = headerLine :: map dataLine chartData.
Proof.
  rewrite csv_join. apply lines_join. constructor; [reflexivity|].
  apply Forall_forall. intros l Hl. apply in_map_iff in Hl as [p [<- _]].
  apply dataLine_no_newline.
Qed.

(** The date-time text ends with the milliseconds, as three digits after a
    point, and the zone [Z]. *)
Lemma toISOString_milliseconds_zone t :
  exists seconds,
    JS.toISOString t
    = (seconds ++ "." ++ JS.digits 3 (t mod 1000) ++ "Z")%string.
Proof.
  unfold JS.toISOString.
  exists (JS.yearField (JS.YearFromTime t) ++ "-" ++ JS.digits 2 (JS.MonthFromTime t + 1)
            ++ "-" ++ JS.digits 2 (JS.DateFromTime t)
            ++ "T" ++ JS.digits 2 (JS.HourFromTime t)
            ++ ":" ++ JS.digits 2 (JS.MinFromTime t)
            ++ ":" ++ JS.digits 2 (JS.SecFromTime t))%string.
  rewrite !append_assoc. reflexivity.
Qed.

(** C6: the document has the header line first and then one line per point,
    in the order of the points, so [n + 1] lines for [n] points, joined by
    newlines.  The line of a point whose count is a safe integer and whose
    date is valid holds two fields, each between double quotes and
    separated by a comma: the first is a decimal text that reads, digit by
    digit, as the count of the point; the second is a date-time text in
    the form [YYYY-MM-DDTHH:mm:ss.sssZ] (the only form that [JS.parse]
    accepts, with milliseconds and the zone [Z]) that reads as the
    timestamp of the point. *)
Theorem csv_spec (chartData : list ChartData.t) :
  csv chartData = JS.join newline (headerLine :: map dataLine chartData)
  /\ lines (csv chartData) = headerLine :: map dataLine chartData
  /\ List.length (lines (csv chartData)) = S (List.length chartData)
  /\ (forall p, exists seconds,
         dataLine p
         = String quoteChar (JS.numberToString (ChartData.value p) ++ String quoteChar
             ("," ++ String quoteChar
                ((seconds ++ "." ++ JS.digits 3 (ChartData.timestamp p mod 1000) ++ "Z")
                   ++ String quoteChar EmptyString)))%string)
  /\ (forall today, content (exportDataToCsv today chartData) = csv chartData)
  /\ (forall i p,
         nth_error chartData i = Some p ->
         JS.safeInteger (ChartData.value p) ->
         JS.validTime (ChartData.timestamp p) ->
         exists count stamp,
           nth_error (lines (csv chartData)) (S i) = Some (lineOf count stamp)
           /\ avoids quoteChar count = true
           /\ avoids quoteChar stamp = true
           /\ readDecimal count = Some (ChartData.value p)
           /\ JS.parse stamp = Some (ChartData.timestamp p)).
Proof.
  split; [apply csv_join|]. split; [apply csv_lines|].
  split; [rewrite csv_lines; cbn [List.length]; now rewrite length_map|].
  split; [|split; [reflexivity|]].
  - intros p. destruct (toISOString_milliseconds_zone (ChartData.timestamp p)) as [sec E].
    exists sec. unfold dataLine. now rewrite E.
  - intros i p Hi _ Hv.
    exists (JS.numberToString (ChartData.value p)),
      (JS.toISOString (ChartData.timestamp p)).
    split; [|split; [|split; [|split]]].
    + rewrite csv_lines. cbn [nth_error]. rewrite <- dataLine_lineOf.
      now apply map_nth_error.
    + apply avoids_numberToString; [reflexivity | discriminate].
    + apply avoids_toISOString; reflexivity.
    + apply readDecimal_numberToString.
    + now apply DateFacts.parse_toISOString.
Qed.

Lemma csv_spec_witness :
  exists count stamp,
    nth_error (lines (csv scenarioPoints)) 2 = Some (lineOf count stamp)
    /\ avoids quoteChar count = true
    /\ avoids quoteChar stamp = true
    /\ readDecimal count = Some 12
    /\ JS.parse stamp = Some 1719820805000.
Proof.
  apply (proj2 (proj2 (proj2 (proj2 (proj2 (csv_spec scenarioPoints)))))
           1%nat (ChartData.mk "b" "08:00:05" 12 1719820805000)).
  - reflexivity.
  - unfold JS.safeInteger, JS.maxSafeInteger. cbn. lia.
  - unfold JS.validTime, JS.maxTime. cbn. lia.
Defined.

(** C7: for a point with a valid date, the second field of its line in the
    CSV document, read back as an ISO-8601 date-time, is the timestamp of
    the point. *)
Theorem csv_timestamp_roundtrip (chartData : list ChartData.t) (i : nat) (p : ChartData.t) :
  nth_error chartData i = Some p ->
  JS.validTime (ChartData.timestamp p) ->
  exists line,
    nth_error (lines (csv chartData)) (S i) = Some line
    /\ JS.parse (secondField line) = Some (ChartData.timestamp p).
Proof.
  intros Hi Hv. exists (dataLine p). split.
  - rewrite csv_lines. cbn [nth_error]. now apply map_nth_error.
  - rewrite secondField_dataLine. now apply DateFacts.parse_toISOString.
Qed.

Lemma csv_timestamp_roundtrip_witness :
  exists line,
    nth_error (lines (csv scenarioPoints)) 2 = Some line
    /\ JS.parse (secondField line) = Some 1719820805000.
Proof.
  apply (csv_timestamp_roundtrip scenarioPoints 1
           (ChartData.mk "b" "08:00:05" 12 1719820805000)).
  - reflexivity.
  - unfold JS.validTime, JS.maxTime. cbn. lia.
Defined.

(** ** Fetch failure *)

(** What [console.error] prints for the error text [e]. *)
Lemma resume_error_console {S} q sr sd sl (w : World S) d e :
  console (env (resume (fetchData q sr sd sl)
                  {| Supabase.data := d; Supabase.error := Some e |} w))
  = console (env w) ++ [("Supabase fetch error: " ++ e)%string].
Proof. reflexivity. Qed.

(** C8: when a fetch completes with a failure, in either variant, the
    state is the one before the completion with [refreshing] cleared: the
    readings, [lastRefreshed] and every other field are unchanged; the
    failure is written to the console; no query is sent and the intervals
    are untouched, so nothing is retried before the next tick.  A fetch
    that starts and fails with nothing in between leaves the readings and
    [lastRefreshed] as they were before it started. *)
Theorem fetch_failure_spec (d : option (list TimeSeriesData.t)) (e : string) :
  let r := {| Supabase.data := d; Supabase.error := Some e |} in
  (forall w : World Gated.State,
      let w' := resume Gated.fetchData r w in
      view w' = Gated.setRefreshing false (view w)
      /\ Gated.dataState (view w') = Gated.dataState (view w)
      /\ Gated.refreshing (view w') = false
      /\ Gated.lastRefreshed (view w') = Gated.lastRefreshed (view w)
      /\ console (env w') = console (env w) ++ [("Supabase fetch error: " ++ e)%string]
      /\ requests (env w') = requests (env w)
      /\ intervals (env w') = intervals (env w)
      /\ Gated.dataState (view (resume Gated.fetchData r (call Gated.fetchData w)))
         = Gated.dataState (view w)
      /\ Gated.lastRefreshed (view (resume Gated.fetchData r (call Gated.fetchData w)))
         = Gated.lastRefreshed (view w))
  /\ (forall w : World AlwaysOn.State,
         let w' := resume AlwaysOn.fetchData r w in
         view w' = AlwaysOn.setRefreshing false (view w)
         /\ AlwaysOn.dataState (view w') = AlwaysOn.dataState (view w)
         /\ AlwaysOn.refreshing (view w') = false
         /\ AlwaysOn.lastRefreshed (view w') = AlwaysOn.lastRefreshed (view w)
         /\ console (env w') = console (env w) ++ [("Supabase fetch error: " ++ e)%string]
         /\ requests (env w') = requests (env w)
         /\ intervals (env w') = intervals (env w)
         /\ AlwaysOn.dataState (view (resume AlwaysOn.fetchData r (call AlwaysOn.fetchData w)))
            = AlwaysOn.dataState (view w)
         /\ AlwaysOn.lastRefreshed (view (resume AlwaysOn.fetchData r (call AlwaysOn.fetchData w)))
            = AlwaysOn.lastRefreshed (view w)).
Proof. split; intros w; repeat split. Qed.

(** On success the rows replace the readings and [lastRefreshed] becomes
    the time of completion. *)
Lemma fetch_success_gated (w : World Gated.State) rows :
  let w' := resume Gated.fetchData
              {| Supabase.data := Some rows; Supabase.error := None |} w in
  Gated.dataState (view w') = rows
  /\ Gated.lastRefreshed (view w') = Some (now (env w))
  /\ Gated.refreshing (view w') = false.
Proof. repeat split. Qed.

(** ** The access gate *)

Lemma secret_decoded : Gated.secret = Some "bajer".
Proof. reflexivity. Qed.

Lemma mount_Idle data t : Gated.Idle (Gated.mount data (newBrowser t)).
Proof. repeat split. Qed.

(** C9: in the Idle state, confirming with the password that equals the
    decoded secret enables realtime and starts the 5-second interval
    (Polling); confirming with any other password raises the alert
    "Incorrect password", leaves the state Idle and changes no field of the
    state, the readings among them. *)
Theorem password_gate (w : World Gated.State) :
  Gated.Idle w ->
  let w' := Gated.onConfirm w in
  (Gated.secret = Some (Gated.password (view w)) ->
   Gated.Polling w'
   /\ Gated.dataState (view w') = Gated.dataState (view w))
  /\ (Gated.secret <> Some (Gated.password (view w)) ->
      Gated.Idle w'
      /\ view w' = view w
      /\ Gated.dataState (view w') = Gated.dataState (view w)
      /\ alerts (env w') = alerts (env w) ++ ["Incorrect password"]).
Proof.
  intros (Hoff & Hclean & Hiv). destruct w as [s b c].
  destruct b as [t ivs nid rq co al]. cbn in *. subst c ivs.
  unfold Gated.onConfirm, Gated.handle. rewrite secret_decoded. cbn [view].
  split.
  - intros E. injection E as E. rewrite <- E, String.eqb_refl.
    unfold Gated.rerender. cbn [view onView Gated.setShowPasswordModal
      Gated.setRealtimeEnabled Gated.realtimeEnabled].
    rewrite Hoff. cbn [Bool.eqb].
    unfold Gated.runCleanup, Gated.effect. cbn.
    split; [|reflexivity]. split; [reflexivity|].
    exists nid, (t + 5000). split; reflexivity.
  - intros N.
    destruct (String.eqb_spec (Gated.password s) "bajer") as [E|_];
      [exfalso; apply N; now rewrite E|].
    unfold Gated.rerender. cbn [view onEnv]. rewrite Bool.eqb_reflx.
    cbn. repeat split; assumption.
Qed.

Lemma password_gate_witness :
  let w := Gated.onPasswordChange "bajer"
             (Gated.onToggle (Gated.mount [] (newBrowser 0))) in
  Gated.Idle w
  /\ Gated.secret = Some (Gated.password (view w))
  /\ Gated.Polling (Gated.onConfirm w).
Proof.
  assert (H : Gated.Idle (Gated.onPasswordChange "bajer"
                            (Gated.onToggle (Gated.mount [] (newBrowser 0)))))
    by (repeat split).
  split; [exact H|]. split; [reflexivity|].
  exact (proj1 (proj1 (password_gate _ H) eq_refl)).
Defined.

(** ** Disabling realtime *)

Lemma toggle_off_Idle (w : World Gated.State) :
  Gated.Polling w -> Gated.Idle (Gated.onToggle w).
Proof.
  intros (Hon & id & t & Hclean & Hiv). destruct w as [s b c].
  destruct b as [t0 ivs nid rq co al]. cbn in *. subst c ivs.
  unfold Gated.onToggle, Gated.handle. cbn [view]. rewrite Hon.
  unfold Gated.rerender. cbn [view onView Gated.setRealtimeEnabled
    Gated.realtimeEnabled]. rewrite Hon. cbn [Bool.eqb].
  unfold Gated.runCleanup, Gated.effect, Gated.Idle. cbn.
  rewrite Nat.eqb_refl. cbn. repeat split.
Qed.

(** C10: disabling realtime in the Polling state turns [realtimeEnabled]
    off and clears the interval; every other field of the state (readings,
    threshold, [lastRefreshed], password, dialog, [refreshing]) is
    unchanged, and nothing is sent, logged or alerted. *)
Theorem disable_frame (w : World Gated.State) :
  Gated.Polling w ->
  let w' := Gated.onToggle w in
  view w' = Gated.setRealtimeEnabled false (view w)
  /\ Gated.dataState (view w') = Gated.dataState (view w)
  /\ Gated.threshold (view w') = Gated.threshold (view w)
  /\ Gated.lastRefreshed (view w') = Gated.lastRefreshed (view w)
  /\ Gated.refreshing (view w') = Gated.refreshing (view w)
  /\ Gated.password (view w') = Gated.password (view w)
  /\ Gated.showPasswordModal (view w') = Gated.showPasswordModal (view w)
  /\ Gated.Idle w'
  /\ requests (env w') = requests (env w)
  /\ console (env w') = console (env w)
  /\ alerts (env w') = alerts (env w).
Proof.
  intros (Hon & id & t & Hclean & Hiv). destruct w as [s b c].
  destruct b as [t0 ivs nid rq co al]. cbn in *. subst c ivs.
  unfold Gated.onToggle, Gated.handle. cbn [view]. rewrite Hon.
  unfold Gated.rerender. cbn [view onView Gated.setRealtimeEnabled
    Gated.realtimeEnabled]. rewrite Hon. cbn [Bool.eqb].
  unfold Gated.runCleanup, Gated.effect, Gated.Idle. cbn.
  rewrite Nat.eqb_refl. cbn. repeat split.
Qed.

Lemma disable_frame_witness :
  let w := Gated.enableWith "bajer" (Gated.mount [] (newBrowser 0)) in
  Gated.Polling w
  /\ view (Gated.onToggle w) = Gated.setRealtimeEnabled false (view w)
  /\ Gated.Idle (Gated.onToggle w).
Proof.
  assert (H : Gated.Polling (Gated.enableWith "bajer" (Gated.mount [] (newBrowser 0)))).
  { split; [reflexivity|]. exists 1%nat, 5000. split; reflexivity. }
  split; [exact H|].
  pose proof (disable_frame _ H) as (Hv & _ & _ & _ & _ & _ & _ & Hi & _).
  split; [exact Hv | exact Hi].
Defined.

(** ** The polling controller *)

Lemma nextDue_single target id iv :
  nextDue target [(id, iv)]
  = if due iv <=? target then Some (id, iv) else None.
Proof. reflexivity. Qed.

Lemma runTimers_no_interval {S} (exec : Callback -> World S -> World S)
      fuel target (w : World S) :
  intervals (env w) = [] ->
  runTimers exec (Datatypes.S fuel) target w = onEnv (setNow target) w.
Proof. intros H. cbn [runTimers]. now rewrite H. Qed.

(** With no interval registered, time passing sends nothing. *)
Lemma elapse_no_interval {S} (exec : Callback -> World S -> World S) dt (w : World S) :
  intervals (env w) = [] ->
  requests (env (elapse exec dt w)) = requests (env w)
  /\ view (elapse exec dt w) = view w
  /\ now (env (elapse exec dt w)) = now (env w) + Z.max 0 dt.
Proof.
  intros H. unfold elapse. rewrite runTimers_no_interval by assumption.
  repeat split.
Qed.

Lemma ticks_succ target d :
  d <= target ->
  Z.to_nat ((target - d + 5000) / 5000)
  = Datatypes.S (Z.to_nat ((target - (d + 5000) + 5000) / 5000)).
Proof.
  intros H. rewrite <- Z2Nat.inj_succ by (Z.to_euclidean_division_equations; lia).
  f_equal. Z.to_euclidean_division_equations; lia.
Qed.

Lemma ticks_none target d :
  target < d -> Z.to_nat ((target - d + 5000) / 5000) = 0%nat.
Proof.
  intros H.
  assert ((target - d + 5000) / 5000 <= 0)
    by (Z.to_euclidean_division_equations; lia).
  destruct ((target - d + 5000) / 5000); try reflexivity; lia.
Qed.

(** While the component's interval is the only one and its callback leaves
    the timers and the clock alone, the loop reaches the target time and
    the interval has then fired once per five seconds. *)
Section Ticking.
Context {S : Type} (exec : Callback -> World S -> World S).
Hypothesis exec_env : forall cb w,
  intervals (env (exec cb w)) = intervals (env w)
  /\ now (env (exec cb w)) = now (env w).

Lemma runTimers_ticking fuel : forall target (w : World S) id d,
  ticking id d w ->
  (Z.to_nat ((target - d + 5000) / 5000) < fuel)%nat ->
  let w' := runTimers exec fuel target w in
  now (env w') = target
  /\ ticking id (d + 5000 * Z.of_nat (Z.to_nat ((target - d + 5000) / 5000))) w'.
Proof.
  induction fuel as [|fuel IH]; intros target w id d Ht Hfuel; [lia|].
  cbn zeta. cbn [runTimers]. unfold ticking in Ht. rewrite Ht, nextDue_single.
  cbn [due callback].
  destruct (Z.leb_spec d target) as [Hle|Hgt].
  - rewrite ticks_succ in * by assumption.
    match goal with
    | |- context [runTimers _ _ _ ?x] => set (w1 := x)
    end.
    assert (Ht1 : ticking id (d + 5000) w1).
    { unfold ticking, w1. rewrite (proj1 (exec_env _ _)). cbn. rewrite Ht. cbn.
      now rewrite Nat.eqb_refl. }
    destruct (IH target w1 id (d + 5000) Ht1) as (Hn & Hk); [lia|].
    split; [exact Hn|].
    replace (d + 5000 * Z.of_nat (Datatypes.S (Z.to_nat ((target - (d + 5000) + 5000) / 5000))))
      with (d + 5000 + 5000 * Z.of_nat (Z.to_nat ((target - (d + 5000) + 5000) / 5000)))
      by lia.
    exact Hk.
  - rewrite ticks_none by assumption.
    repeat split. unfold ticking. cbn. rewrite Ht. f_equal. f_equal. f_equal. lia.
Qed.

Lemma elapse_ticking dt (w : World S) id :
  ticking id (now (env w) + 5000) w ->
  now (env (elapse exec dt w)) = now (env w) + Z.max 0 dt
  /\ ticking id (now (env w) + 5000 + 5000 * Z.of_nat (ticksIn (Z.max 0 dt)))
       (elapse exec dt w).
Proof.
  intros Ht. unfold elapse. pose proof Ht as Hi. unfold ticking in Hi.
  rewrite Hi. cbn [List.length].
  assert (E : (now (env w) + Z.max 0 dt - (now (env w) + 5000) + 5000) / 5000
              = Z.max 0 dt / 5000) by (f_equal; lia).
  destruct (runTimers_ticking (Datatypes.S (Z.to_nat (Z.max 0 dt) * 2))
              (now (env w) + Z.max 0 dt) w id _ Ht) as (Hn & Hk).
  { rewrite E.
    assert (Z.max 0 dt / 5000 <= Z.max 0 dt) by (Z.to_euclidean_division_equations; lia).
    assert (0 <= Z.max 0 dt / 5000) by (Z.to_euclidean_division_equations; lia). lia. }
  rewrite E in Hk. split; assumption.
Qed.
End Ticking.

(** *** The always-on variant polls *)

Lemma mount_fetches_at_once data b :
  requests (env (AlwaysOn.mount data b)) = requests b ++ [allRowsQuery]
  /\ AlwaysOn.refreshing (view (AlwaysOn.mount data b)) = true
  /\ cleanup (AlwaysOn.mount data b) = Some (nextId b)
  /\ (intervals b = [] -> ticking (nextId b) (now b + 5000) (AlwaysOn.mount data b)).
Proof.
  repeat split. intros H. unfold ticking. cbn. now rewrite H.
Qed.

Lemma runTimers_polling fuel : forall target (w : World AlwaysOn.State) id d,
  ticking id d w ->
  (Z.to_nat ((target - d + 5000) / 5000) < fuel)%nat ->
  let n := Z.to_nat ((target - d + 5000) / 5000) in
  let w' := runTimers AlwaysOn.exec fuel target w in
  requests (env w') = requests (env w) ++ repeat allRowsQuery n
  /\ now (env w') = target
  /\ ticking id (d + 5000 * Z.of_nat n) w'.
Proof.
  induction fuel as [|fuel IH]; intros target w id d Ht Hfuel; [lia|].
  cbn zeta. cbn [runTimers]. unfold ticking in Ht. rewrite Ht, nextDue_single.
  cbn [due callback].
  destruct (Z.leb_spec d target) as [Hle|Hgt].
  - rewrite ticks_succ in * by assumption.
    match goal with
    | |- context [runTimers _ _ _ ?x] => set (w1 := x)
    end.
    assert (Ht1 : ticking id (d + 5000) w1).
    { unfold ticking, w1. cbn. rewrite Ht. cbn. now rewrite Nat.eqb_refl. }
    assert (Hr1 : requests (env w1) = requests (env w) ++ [allRowsQuery])
      by reflexivity.
    destruct (IH target w1 id (d + 5000) Ht1) as (Hr & Hn & Hk); [lia|].
    rewrite Hr, Hr1, <- app_assoc. cbn [repeat app].
    repeat split; try assumption.
    replace (d + 5000 * Z.of_nat (Datatypes.S (Z.to_nat ((target - (d + 5000) + 5000) / 5000))))
      with (d + 5000 + 5000 * Z.of_nat (Z.to_nat ((target - (d + 5000) + 5000) / 5000)))
      by lia.
    exact Hk.
  - rewrite ticks_none by assumption. cbn [repeat]. rewrite app_nil_r.
    repeat split. unfold ticking. cbn. rewrite Ht. f_equal. f_equal. f_equal. lia.
Qed.

(** From mount, with no other interval around: one fetch at once, and one
    more at every full five seconds. *)
Lemma alwaysOn_polls data b dt :
  intervals b = [] -> 0 <= dt ->
  requests (env (elapse AlwaysOn.exec dt (AlwaysOn.mount data b)))
  = requests b ++ allRowsQuery :: repeat allRowsQuery (ticksIn dt).
Proof.
  intros Hb Hdt.
  destruct (mount_fetches_at_once data b) as (Hr & _ & _ & Ht).
  specialize (Ht Hb). unfold elapse. rewrite Ht. cbn [List.length].
  rewrite Z.max_r by assumption.
  replace (now (env (AlwaysOn.mount data b))) with (now b) by reflexivity.
  assert (E : (now b + dt - (now b + 5000) + 5000) / 5000 = dt / 5000)
    by (f_equal; lia).
  destruct (runTimers_polling
              (Datatypes.S (Z.to_nat dt * 2)) (now b + dt) _ _ _ Ht) as (H & _).
  { rewrite E. assert (dt / 5000 <= dt) by (Z.to_euclidean_division_equations; lia).
    assert (0 <= dt / 5000) by (Z.to_euclidean_division_equations; lia). lia. }
  rewrite H, Hr, E, <- app_assoc. reflexivity.
Qed.

(** After unmount nothing more is fetched, however long one waits. *)
Lemma alwaysOn_unmount_stops data b dt dt' :
  intervals b = [] -> 0 <= dt ->
  let w := AlwaysOn.unmount (elapse AlwaysOn.exec dt (AlwaysOn.mount data b)) in
  intervals (env w) = []
  /\ requests (env (elapse AlwaysOn.exec dt' w)) = requests (env w).
Proof.
  intros Hb Hdt.
  destruct (mount_fetches_at_once data b) as (_ & _ & Hc & Ht).
  specialize (Ht Hb).
  assert (Hw : intervals (env (AlwaysOn.unmount
             (elapse AlwaysOn.exec dt (AlwaysOn.mount data b)))) = []).
  { unfold elapse. rewrite Ht. cbn [List.length]. rewrite Z.max_r by assumption.
    set (target := now (env (AlwaysOn.mount data b)) + dt).
    destruct (runTimers_polling
                (Datatypes.S (Z.to_nat dt * 2)) target _ _ _ Ht) as (_ & _ & Hk).
    { subst target.
      replace (now (env (AlwaysOn.mount data b))) with (now b) by reflexivity.
      replace ((now b + dt - (now b + 5000) + 5000) / 5000) with (dt / 5000)
        by (f_equal; lia).
      assert (dt / 5000 <= dt) by (Z.to_euclidean_division_equations; lia).
      assert (0 <= dt / 5000) by (Z.to_euclidean_division_equations; lia). lia. }
    assert (Hc' : forall fuel w, cleanup (runTimers AlwaysOn.exec fuel target w)
                                 = cleanup w).
    { induction fuel as [|fuel IH]; intros w; [reflexivity|].
      cbn [runTimers]. destruct (nextDue _ _) as [[i iv]|]; [|reflexivity].
      rewrite IH. destruct (callback iv). reflexivity. }
    unfold AlwaysOn.unmount, AlwaysOn.runCleanup. rewrite Hc', Hc.
    cbn [env clearInterval intervals]. unfold ticking in Hk. rewrite Hk.
    cbn. now rewrite Nat.eqb_refl. }
  split; [exact Hw|]. now apply elapse_no_interval.
Qed.

(** *** The gated variant registers the interval and never fetches *)

Lemma runTimers_gated fuel : forall target (w : World Gated.State),
  requests (env (runTimers Gated.exec fuel target w)) = requests (env w)
  /\ view (runTimers Gated.exec fuel target w) = view w.
Proof.
  induction fuel as [|fuel IH]; intros target w; [split; reflexivity|].
  cbn [runTimers]. destruct (nextDue _ _) as [[id iv]|]; [|split; reflexivity].
  destruct (IH target (Gated.exec (callback iv)
              (onEnv (fun b => reschedule id (setNow (due iv) b)) w))) as [-> ->].
  destruct (callback iv). split; reflexivity.
Qed.

Lemma enableWith_Polling data t0 :
  Gated.Polling (Gated.enableWith "bajer" (Gated.mount data (newBrowser t0))).
Proof.
  split; [reflexivity|]. exists 1%nat, (t0 + 5000). split; reflexivity.
Qed.

(** C1 (gated variant): after the right password the controller is Polling,
    with the interval registered; no fetch is sent at that moment, and none
    is sent however much time passes, the state staying as it was. *)
Theorem gated_enable_never_fetches (data : list TimeSeriesData.t) (t0 dt : Z) :
  let w := Gated.enableWith "bajer" (Gated.mount data (newBrowser t0)) in
  Gated.Polling w
  /\ requests (env w) = []
  /\ now (env (elapse Gated.exec dt w)) = t0 + Z.max 0 dt
  /\ ticking 1 (t0 + 5000 + 5000 * Z.of_nat (ticksIn (Z.max 0 dt)))
       (elapse Gated.exec dt w)
  /\ requests (env (elapse Gated.exec dt w)) = []
  /\ Gated.dataState (view (elapse Gated.exec dt w)) = data
  /\ Gated.lastRefreshed (view (elapse Gated.exec dt w)) = None.
Proof.
  cbn zeta. split; [apply enableWith_Polling|]. split; [reflexivity|].
  assert (Ht : ticking 1 (t0 + 5000)
                 (Gated.enableWith "bajer" (Gated.mount data (newBrowser t0))))
    by reflexivity.
  destruct (elapse_ticking Gated.exec
              (fun cb w => match cb with EffectTick => conj eq_refl eq_refl end)
              dt _ 1%nat Ht) as (Hn & Hk).
  split; [exact Hn|]. split; [exact Hk|].
  unfold elapse.
  match goal with
  | |- context [runTimers Gated.exec ?f ?t ?w] =>
      destruct (runTimers_gated f t w) as [-> ->]
  end.
  repeat split.
Qed.

(** Ten seconds after enabling, the always-on variant has sent three
    queries and the gated one none. *)
Example polling_after_ten_seconds :
  List.length (requests (env (elapse AlwaysOn.exec 10000
                                (AlwaysOn.mount [] (newBrowser 0))))) = 3%nat
  /\ List.length (requests (env (elapse Gated.exec 10000
                                   (Gated.enableWith "bajer"
                                      (Gated.mount [] (newBrowser 0)))))) = 0%nat.
Proof. split; vm_compute; reflexivity. Qed.

(** After disabling, or after unmount, the gated variant has no interval
    left. *)
Lemma gated_stop_clears (w : World Gated.State) :
  Gated.Polling w ->
  intervals (env (Gated.onToggle w)) = []
  /\ intervals (env (Gated.unmount w)) = [].
Proof.
  intros HP. split.
  - destruct (toggle_off_Idle w HP) as (_ & _ & H). exact H.
  - destruct HP as (_ & id & t & Hc & Hi).
    unfold Gated.unmount, Gated.runCleanup. rewrite Hc. cbn. rewrite Hi. cbn.
    now rewrite Nat.eqb_refl.
Qed.

(** ** The query of the data fetcher *)

Section QueryFacts.
Variable instant : string -> Z.

Lemma execute_capped rows :
  Supabase.execute instant rows cappedQuery
  = firstn 100 (JS.sort (Supabase.byCreatedAt instant true) rows).
Proof. reflexivity. Qed.

Lemma execute_allRows rows :
  Supabase.execute instant rows allRowsQuery
  = JS.sort (Supabase.byCreatedAt instant true) rows.
Proof. reflexivity. Qed.

Let created := Supabase.created instant.

Lemma insert_ascending x l :
  StronglySorted (fun a b => created a <= created b) l ->
  StronglySorted (fun a b => created a <= created b)
    (JS.insert (Supabase.byCreatedAt instant true) x l).
Proof.
  induction 1 as [|y l Hs IH Hy]; cbn [JS.insert].
  - repeat constructor.
  - unfold Supabase.byCreatedAt at 1. fold created.
    destruct (Z.leb_spec (created x - created y) 0) as [Hxy|Hxy].
    + constructor; [now constructor|].
      constructor; [lia|].
      rewrite Forall_forall in *. intros z Hz. specialize (Hy z Hz). lia.
    + constructor; [exact IH|].
      rewrite Forall_forall in *. intros z Hz.
      apply (Permutation_in _ (Permutation_sym (insert_perm _ x l))) in Hz.
      destruct Hz as [<-|Hz]; [lia | now apply Hy].
Qed.

Lemma sort_ascending rows :
  StronglySorted (fun a b => created a <= created b)
    (JS.sort (Supabase.byCreatedAt instant true) rows).
Proof.
  induction rows as [|r rows IH]; cbn [JS.sort fold_right]; [constructor|].
  now apply insert_ascending.
Qed.

(** X10: the capped query returns the first 100 rows of the ascending
    order: every row it leaves out was created at or after every row it
    returns. *)
Lemma capped_keeps_oldest rows :
  let ordered := JS.sort (Supabase.byCreatedAt instant true) rows in
  Supabase.execute instant rows cappedQuery = firstn 100 ordered
  /\ (forall kept left,
         In kept (firstn 100 ordered) -> In left (skipn 100 ordered) ->
         created kept <= created left).
Proof.
  cbn zeta. split; [apply execute_capped|].
  intros kept left Hk Hl.
  pose proof (sort_ascending rows) as Hs.
  rewrite <- (firstn_skipn 100 (JS.sort _ rows)) in Hs.
  revert Hs Hk Hl.
  generalize (firstn 100 (JS.sort (Supabase.byCreatedAt instant true) rows))
    (skipn 100 (JS.sort (Supabase.byCreatedAt instant true) rows)).
  intros l1 l2. induction l1 as [|a l1 IH]; intros Hs Hk Hl; [destruct Hk|].
  cbn [app] in Hs. inversion Hs as [|? ? Hs' Ha]; subst.
  destruct Hk as [<-|Hk]; [|now apply IH].
  rewrite Forall_forall in Ha. apply Ha, in_or_app. now right.
Qed.
End QueryFacts.

(** C2 (capped variant): on a table of 101 rows in creation order, the
    capped query returns the 100 oldest rows; the newest row is left out,
    whereas the 100 most recent rows are all but the oldest. *)
Theorem capped_query_drops_newest :
  let rows := sampleTable 101 in
  Supabase.execute isoInstant rows cappedQuery = firstn 100 rows
  /\ ~ In (sampleRow 100) (Supabase.execute isoInstant rows cappedQuery)
  /\ newestRows isoInstant 100 rows = skipn 1 rows
  /\ Supabase.execute isoInstant rows cappedQuery <> newestRows isoInstant 100 rows.
Proof.
  cbn zeta.
  assert (E : Supabase.execute isoInstant (sampleTable 101) cappedQuery
              = firstn 100 (sampleTable 101)) by (vm_compute; reflexivity).
  assert (N : newestRows isoInstant 100 (sampleTable 101) = skipn 1 (sampleTable 101))
    by (vm_compute; reflexivity).
  split; [exact E|]. split; [|split; [exact N|]].
  - rewrite E. intros H.
    assert (X : existsb (fun r => TimeSeriesData.people_count r =? 100)
                  (firstn 100 (sampleTable 101)) = false)
      by (vm_compute; reflexivity).
    assert (Y : existsb (fun r => TimeSeriesData.people_count r =? 100)
                  (firstn 100 (sampleTable 101)) = true).
    { apply existsb_exists. exists (sampleRow 100). split; [exact H|reflexivity]. }
    congruence.
  - rewrite E, N. intros H.
    apply (f_equal (fun l => option_map TimeSeriesData.people_count (hd_error l))) in H.
    vm_compute in H. discriminate.
Qed.

(* ================================================================== *)
(** * Part III: further properties of the code *)
(* ================================================================== *)

(** ** The table and the alert *)

Lemma insert_last x l :
  Forall (fun y => ts y > ts x) l ->
  JS.insert byTimestampDesc x l = l ++ [x].
Proof.
  induction 1 as [|y l Hy Hl IH]; cbn [JS.insert app]; [reflexivity|].
  unfold byTimestampDesc at 1. fold (ts y) (ts x).
  destruct (Z.leb_spec (ts y - ts x) 0); [lia|]. now rewrite IH.
Qed.

Lemma sort_ascending_rev (points : list ChartData.t) :
  StronglySorted (fun a b => ts a < ts b) points ->
  tableData points = rev points.
Proof.
  induction 1 as [|x l Hs IH Hx]; [reflexivity|].
  change (tableData (x :: l)) with (JS.insert byTimestampDesc x (tableData l)).
  rewrite IH. cbn [rev].
  apply insert_last. rewrite Forall_forall in *. intros y Hy.
  apply in_rev in Hy. specialize (Hx y Hy). lia.
Qed.

(** X1: when the chart sequence is strictly ascending in time, as the rows
    of the query are when no two share an instant, the table is the chart
    sequence reversed. *)
Theorem tableData_ascending_rev (points : list ChartData.t) :
  StronglySorted (fun a b => ts a < ts b) points ->
  tableData points = rev points.
Proof.
  intros H. now apply sort_ascending_rev.
Qed.

Lemma ascendingPoints_sorted :
  StronglySorted (fun a b => ts a < ts b) ascendingPoints.
Proof.
  repeat constructor; unfold ts; cbn; lia.
Qed.

Lemma tableData_ascending_rev_witness :
  StronglySorted (fun a b => ts a < ts b) ascendingPoints
  /\ tableData ascendingPoints = rev ascendingPoints.
Proof.
  split; [exact ascendingPoints_sorted|].
  exact (tableData_ascending_rev ascendingPoints ascendingPoints_sorted).
Defined.

(** X2: sorting a table again changes nothing. *)
Theorem tableData_idempotent (points : list ChartData.t) :
  tableData (tableData points) = tableData points.
Proof.
  symmetry. apply sorted_stable_unique.
  - apply tableData_sorted.
  - apply tableData_sorted.
  - intros t. now rewrite (tableData_stable (tableData points)).
Qed.

(** X3: the first row of the table is a point of the latest instant, and
    among the points of that instant it is the one that comes first in the
    chart sequence. *)
Theorem tableData_head (points : list ChartData.t) (h : ChartData.t)
        (rest : list ChartData.t) :
  tableData points = h :: rest ->
  Forall (fun q => ts q <= ts h) points
  /\ hd_error (filter (atTime (ts h)) points) = Some h.
Proof.
  intros E. split.
  - pose proof (tableData_sorted points) as Hs. rewrite E in Hs.
    inversion Hs as [|? ? _ Hh]; subst. rewrite Forall_forall in *.
    intros q Hq.
    apply (Permutation_in _ (sort_perm byTimestampDesc points)) in Hq.
    fold (tableData points) in Hq. rewrite E in Hq.
    destruct Hq as [<-|Hq]; [lia|]. specialize (Hh q Hq). lia.
  - rewrite <- tableData_stable, E. cbn [filter].
    unfold atTime at 1. now rewrite Z.eqb_refl.
Qed.

Lemma tableData_head_witness :
  Forall (fun q => ts q <= 1719820800000) tiePoints
  /\ hd_error (filter (atTime 1719820800000) tiePoints)
     = Some (ChartData.mk "a" "08:00:00" 3 1719820800000).
Proof.
  exact (tableData_head tiePoints (ChartData.mk "a" "08:00:00" 3 1719820800000)
           [ChartData.mk "b" "08:00:00" 12 1719820800000] eq_refl).
Defined.

Lemma some_perm {A} (f : A -> bool) l l' :
  Permutation l l' -> JS.some f l = JS.some f l'.
Proof.
  unfold JS.some. induction 1; cbn [existsb].
  - reflexivity.
  - now rewrite IHPermutation.
  - now rewrite !orb_assoc, (orb_comm (f y)).
  - congruence.
Qed.

(** X4: the alert does not depend on the order of the points: it is the
    same for the table as for the chart sequence, and the alert of two
    sequences put together is the alert of either. *)
Theorem alert_order_independent (points more : list ChartData.t) (threshold : Z) :
  isThresholdExceeded (tableData points) threshold
  = isThresholdExceeded points threshold
  /\ isThresholdExceeded (points ++ more) threshold
     = isThresholdExceeded points threshold || isThresholdExceeded more threshold.
Proof.
  split.
  - unfold isThresholdExceeded. symmetry. apply some_perm, sort_perm.
  - unfold isThresholdExceeded, JS.some. apply existsb_app.
Qed.

(** X5: raising the threshold can only turn the alert off. *)
Theorem alert_monotone (points : list ChartData.t) (low high : Z) :
  low <= high ->
  isThresholdExceeded points high = true ->
  isThresholdExceeded points low = true.
Proof.
  intros Hle H. unfold isThresholdExceeded, JS.some in *.
  apply existsb_exists in H as [p [Hin Hp]].
  apply existsb_exists. exists p. split; [exact Hin|].
  apply Z.ltb_lt in Hp. apply Z.ltb_lt. lia.
Qed.

Lemma alert_monotone_witness :
  isThresholdExceeded scenarioPoints 5 = true.
Proof.
  apply (alert_monotone scenarioPoints 5 10); [lia | reflexivity].
Defined.

(** ** The CSV document read back *)

Lemma occurrences_app c s r :
  occurrences c (s ++ r) = (occurrences c s + occurrences c r)%nat.
Proof.
  induction s as [|a s IH]; cbn [append occurrences]; [reflexivity|].
  rewrite IH. lia.
Qed.

Lemma occurrences_avoids c s : avoids c s = true -> occurrences c s = 0%nat.
Proof.
  induction s as [|a s IH]; cbn [avoids occurrences]; [reflexivity|].
  intros H. apply andb_prop in H as [Ha Hs].
  destruct (Ascii.eqb a c); [discriminate|]. now rewrite IH.
Qed.

(** X7: the fields are written between double quotes without escaping, and
    need none: the decimal count and the date-time text contain no double
    quote, no comma and no newline, so a data line has exactly four double
    quotes, one comma and no newline. *)
Theorem csv_fields_unescaped (p : ChartData.t) :
  let count := JS.numberToString (ChartData.value p) in
  let stamp := JS.toISOString (ChartData.timestamp p) in
  avoids quoteChar count = true /\ avoids "," count = true
  /\ avoids "010" count = true
  /\ avoids quoteChar stamp = true /\ avoids "," stamp = true
  /\ avoids "010" stamp = true
  /\ occurrences quoteChar (dataLine p) = 4%nat
  /\ occurrences "," (dataLine p) = 1%nat
  /\ occurrences "010" (dataLine p) = 0%nat.
Proof.
  cbn zeta.
  assert (Hc : forall c, JS.digitValue c = None -> c <> "-"%char ->
                         avoids c (JS.numberToString (ChartData.value p)) = true)
    by (intros c H1 H2; now apply avoids_numberToString).
  assert (Hs : forall c, JS.digitValue c = None -> avoids c "-+T:.Z" = true ->
                         avoids c (JS.toISOString (ChartData.timestamp p)) = true)
    by (intros c H1 H2; now apply avoids_toISOString).
  assert (Hline : forall c, JS.digitValue c = None -> c <> "-"%char ->
            avoids c "-+T:.Z" = true ->
            occurrences c (dataLine p)
            = ((if Ascii.eqb quoteChar c then 4 else 0)
               + (if Ascii.eqb "," c then 1 else 0))%nat).
  { intros c H1 H2 H3. unfold dataLine. cbn [occurrences].
    repeat (rewrite occurrences_app; cbn [occurrences append]).
    rewrite (occurrences_avoids c _ (Hc c H1 H2)),
      (occurrences_avoids c _ (Hs c H1 H3)).
    destruct (Ascii.eqb quoteChar c), (Ascii.eqb "," c); reflexivity. }
  repeat split;
    try (apply Hc; [reflexivity | discriminate]);
    try (apply Hs; reflexivity);
    rewrite Hline by (reflexivity || discriminate); reflexivity.
Qed.

Lemma readRow_dataLine p :
  JS.validTime (ChartData.timestamp p) ->
  readRow (dataLine p) = Some (exported p).
Proof.
  intros Hv. unfold readRow.
  rewrite firstField_dataLine, secondField_dataLine,
    readDecimal_numberToString, DateFacts.parse_toISOString by assumption.
  reflexivity.
Qed.

(** X8: the export loses neither a count nor an instant: when the count of
    every point is a safe integer and its date is valid, reading the
    document back gives the counts and the timestamps of the points, in
    order; so two sequences of such points with the same document have the
    same counts and timestamps. *)
Theorem csv_roundtrip (chartData : list ChartData.t) :
  Forall (fun p => JS.safeInteger (ChartData.value p)
                   /\ JS.validTime (ChartData.timestamp p)) chartData ->
  readCsv (csv chartData) = Some (map exported chartData)
  /\ (forall other,
         Forall (fun p => JS.safeInteger (ChartData.value p)
                          /\ JS.validTime (ChartData.timestamp p)) other ->
         csv other = csv chartData ->
         map exported other = map exported chartData).
Proof.
  assert (R : forall l,
             Forall (fun p => JS.safeInteger (ChartData.value p)
                              /\ JS.validTime (ChartData.timestamp p)) l ->
             readCsv (csv l) = Some (map exported l)).
  { intros l Hl. unfold readCsv. rewrite csv_lines, String.eqb_refl.
    induction Hl as [|p l [_ Hp] Hl IH]; cbn [map readRows]; [reflexivity|].
    now rewrite readRow_dataLine, IH. }
  intros H. split; [now apply R|].
  intros other Ho E. apply R in Ho. rewrite E, R in Ho by assumption.
  now injection Ho.
Qed.

Lemma csv_roundtrip_witness :
  readCsv (csv ascendingPoints)
  = Some [(3, 1719820800000); (12, 1719820805000); (-1, 1719820810000)].
Proof.
  refine (proj1 (csv_roundtrip ascendingPoints _)).
  repeat constructor;
    unfold JS.safeInteger, JS.maxSafeInteger, JS.validTime, JS.maxTime; cbn; lia.
Defined.

(** ** The capped query on small and large tables *)

Lemma capped_keeps_oldest_witness :
  Supabase.created isoInstant (sampleRow 0)
  <= Supabase.created isoInstant (sampleRow 100).
Proof.
  apply (proj2 (capped_keeps_oldest isoInstant (sampleTable 101))).
  - vm_compute. left. reflexivity.
  - vm_compute. left. reflexivity.
Defined.

Section CappedQuery.
Variable instant : string -> Z.

(** X9: the capped query never returns more than 100 rows: it returns 100
    of them when the table has at least as many and all of them otherwise;
    the rows are rows of the table and come in ascending order of
    creation. *)
Theorem capped_result_shape (rows : list TimeSeriesData.t) :
  let result := Supabase.execute instant rows cappedQuery in
  List.length result = Nat.min 100 (List.length rows)
  /\ incl result rows
  /\ StronglySorted
       (fun a b => Supabase.created instant a <= Supabase.created instant b)
       result.
Proof.
  cbn zeta. rewrite execute_capped.
  pose proof (sort_perm (Supabase.byCreatedAt instant true) rows) as P.
  split; [|split].
  - rewrite length_firstn. now rewrite <- (Permutation_length P).
  - intros r Hr. apply (Permutation_in _ (Permutation_sym P)).
    revert Hr. generalize (JS.sort (Supabase.byCreatedAt instant true) rows).
    intros l. rewrite <- (firstn_skipn 100 l) at 2. intros Hr.
    apply in_or_app. now left.
  - pose proof (sort_ascending instant rows) as Hs.
    rewrite <- (firstn_skipn 100 (JS.sort _ rows)) in Hs.
    revert Hs.
    generalize (firstn 100 (JS.sort (Supabase.byCreatedAt instant true) rows))
      (skipn 100 (JS.sort (Supabase.byCreatedAt instant true) rows)).
    intros l1 l2. induction l1 as [|a l1 IH]; intros Hs; [constructor|].
    cbn [app] in Hs. inversion Hs as [|? ? Hs' Ha]; subst.
    constructor; [now apply IH|].
    rewrite Forall_forall in *. intros b Hb. apply Ha, in_or_app. now left.
Qed.

(** X12: while the table holds at most 100 rows the cap does not bite: the
    capped query returns every row, oldest first, exactly as the all-rows
    query does, and these are the most recent rows. *)
Theorem capped_small_table (rows : list TimeSeriesData.t) :
  (List.length rows <= 100)%nat ->
  Supabase.execute instant rows cappedQuery
  = Supabase.execute instant rows allRowsQuery
  /\ Supabase.execute instant rows cappedQuery = newestRows instant 100 rows
  /\ Permutation rows (Supabase.execute instant rows cappedQuery).
Proof.
  intros Hlen. rewrite execute_capped, execute_allRows.
  pose proof (sort_perm (Supabase.byCreatedAt instant true) rows) as P.
  assert (E : firstn 100 (JS.sort (Supabase.byCreatedAt instant true) rows)
              = JS.sort (Supabase.byCreatedAt instant true) rows).
  { apply firstn_all2. now rewrite <- (Permutation_length P). }
  rewrite E. split; [reflexivity|]. split; [|exact P].
  unfold newestRows.
  replace (List.length (JS.sort (Supabase.byCreatedAt instant true) rows) - 100)%nat
    with 0%nat by (rewrite <- (Permutation_length P); lia).
  reflexivity.
Qed.
End CappedQuery.

Lemma capped_small_table_witness :
  Supabase.execute isoInstant (sampleTable 3) cappedQuery
  = Supabase.execute isoInstant (sampleTable 3) allRowsQuery.
Proof.
  apply (capped_small_table isoInstant (sampleTable 3)). cbn. lia.
Defined.

(** ** Runs of the gated component *)

Lemma runTimers_gated_frame fuel : forall target (w : World Gated.State),
  let w' := runTimers Gated.exec fuel target w in
  view w' = view w /\ cleanup w' = cleanup w
  /\ requests (env w') = requests (env w)
  /\ console (env w') = console (env w)
  /\ alerts (env w') = alerts (env w).
Proof.
  induction fuel as [|fuel IH]; intros target w; cbn zeta; [repeat split|].
  cbn [runTimers]. destruct (nextDue _ _) as [[id iv]|]; [|repeat split].
  destruct (IH target (Gated.exec (callback iv)
              (onEnv (fun b => reschedule id (setNow (due iv) b)) w)))
    as (-> & -> & -> & -> & ->).
  destruct (callback iv). repeat split.
Qed.

Lemma gated_exec_env cb (w : World Gated.State) :
  intervals (env (Gated.exec cb w)) = intervals (env w)
  /\ now (env (Gated.exec cb w)) = now (env w).
Proof. destruct cb. split; reflexivity. Qed.

Lemma ticks_bound a : 0 <= a -> a < 5000 -> forall dt, 0 <= dt ->
  (Z.to_nat ((dt + a) / 5000) < Datatypes.S (Z.to_nat dt * 2))%nat.
Proof.
  intros Ha Hb dt Hdt.
  assert (0 <= (dt + a) / 5000) by (Z.to_euclidean_division_equations; lia).
  assert ((dt + a) / 5000 <= 2 * dt) by (Z.to_euclidean_division_equations; lia).
  lia.
Qed.

(** Time passing keeps the interval armed, next due within five seconds. *)
Lemma elapse_armed dt (w : World Gated.State) :
  GatedRun.Armed w -> GatedRun.Armed (elapse Gated.exec dt w).
Proof.
  intros (Hon & id & d & Hc & Ht & Hd).
  unfold elapse. pose proof Ht as Hi. unfold ticking in Hi. rewrite Hi.
  cbn [List.length].
  set (target := now (env w) + Z.max 0 dt).
  set (fuel := Datatypes.S (Z.to_nat (Z.max 0 dt) * 2)).
  assert (Hfuel : (Z.to_nat ((target - d + 5000) / 5000) < fuel)%nat).
  { subst target fuel.
    replace (now (env w) + Z.max 0 dt - d + 5000)
      with (Z.max 0 dt + (now (env w) + 5000 - d)) by lia.
    apply ticks_bound; lia. }
  destruct (runTimers_ticking Gated.exec gated_exec_env fuel target w id d Ht Hfuel)
    as (Hn & Hk).
  destruct (runTimers_gated_frame fuel target w) as (Hv & Hcl & _).
  split; [now rewrite Hv|].
  exists id, (d + 5000 * Z.of_nat (Z.to_nat ((target - d + 5000) / 5000))).
  split; [now rewrite Hcl|]. split; [exact Hk|].
  rewrite Hn. subst target.
  assert (0 <= (now (env w) + Z.max 0 dt - d + 5000) / 5000)
    by (Z.to_euclidean_division_equations; lia).
  rewrite Z2Nat.id by assumption.
  Z.to_euclidean_division_equations; lia.
Qed.

Lemma elapse_idle dt (w : World Gated.State) :
  Gated.Idle w -> Gated.Idle (elapse Gated.exec dt w).
Proof.
  intros (Hoff & Hc & Hi). unfold elapse.
  rewrite runTimers_no_interval by assumption.
  repeat split; assumption.
Qed.

Ltac open_world w :=
  destruct w as [[th ds re sm pw rf lr] [t ivs nid rq co al] c];
  cbn [view env cleanup Gated.realtimeEnabled Gated.password
       Gated.showPasswordModal Gated.dataState Gated.refreshing
       Gated.lastRefreshed Gated.threshold
       intervals now requests console alerts nextId] in *.

Ltac run_handler :=
  unfold Gated.onToggle, Gated.onConfirm, Gated.onCancel,
    Gated.onPasswordChange, Gated.onThresholdChange, Gated.handle,
    Gated.rerender, Gated.effect, Gated.runCleanup;
  cbn.

(** What Confirm does in the Idle state. *)
Lemma onConfirm_idle (w : World Gated.State) :
  Gated.Idle w ->
  (Gated.password (view w) = "bajer" ->
   GatedRun.Armed (Gated.onConfirm w)
   /\ alerts (env (Gated.onConfirm w)) = alerts (env w)
   /\ Gated.password (view (Gated.onConfirm w)) = "bajer")
  /\ (Gated.password (view w) <> "bajer" ->
      Gated.onConfirm w = onEnv (alert "Incorrect password") w).
Proof.
  intros (Hoff & Hc & Hi). open_world w. subst re c ivs. split.
  - intros ->. run_handler. split; [|split; reflexivity].
    split; [reflexivity|]. exists nid, (t + 5000).
    split; [reflexivity|]. split; [reflexivity|]. cbn. lia.
  - intros N. unfold Gated.onConfirm, Gated.handle.
    rewrite secret_decoded. cbn [view Gated.password].
    destruct (String.eqb_spec pw "bajer") as [E|_]; [contradiction|].
    reflexivity.
Qed.

Lemma armed_Polling (w : World Gated.State) : GatedRun.Armed w -> Gated.Polling w.
Proof.
  intros (Hon & id & d & Hc & Ht & _). split; [exact Hon|].
  exists id, d. split; assumption.
Qed.

(** Every event keeps the component either Idle or Armed. *)
Lemma step_settled (w : World Gated.State) e :
  Gated.Idle w \/ GatedRun.Armed w ->
  Gated.Idle (GatedRun.step w e) \/ GatedRun.Armed (GatedRun.step w e).
Proof.
  intros [HI|HA].
  - destruct e; cbn [GatedRun.step].
    + left. destruct HI as (Hoff & Hc & Hi). open_world w. subst re c ivs.
      repeat split.
    + left. destruct HI as (Hoff & Hc & Hi). open_world w. subst re c ivs.
      repeat split.
    + destruct (onConfirm_idle w HI) as [Hyes Hno].
      destruct (String.eqb_spec (Gated.password (view w)) "bajer") as [E|N].
      * right. now apply Hyes.
      * left. rewrite (Hno N). destruct HI as (Hoff & Hc & Hi). repeat split; assumption.
    + left. destruct HI as (Hoff & Hc & Hi). open_world w. subst re c ivs.
      repeat split.
    + left. destruct HI as (Hoff & Hc & Hi). open_world w. subst re c ivs.
      repeat split.
    + left. now apply elapse_idle.
  - destruct e; cbn [GatedRun.step].
    + left. now apply toggle_off_Idle, armed_Polling.
    + right. destruct HA as (Hon & id & d & Hc & Ht & Hd). unfold ticking in Ht.
      open_world w. subst re c ivs. run_handler.
      split; [reflexivity|]. exists id, d. repeat split; cbn; lia.
    + right. destruct HA as (Hon & id & d & Hc & Ht & Hd). unfold ticking in Ht.
      open_world w. subst re c ivs.
      unfold Gated.onConfirm, Gated.handle. rewrite secret_decoded.
      cbn [view Gated.password].
      destruct (String.eqb pw "bajer");
        (split; [reflexivity|]; exists id, d; repeat split; cbn; lia).
    + right. destruct HA as (Hon & id & d & Hc & Ht & Hd). unfold ticking in Ht.
      open_world w. subst re c ivs. run_handler.
      split; [reflexivity|]. exists id, d. repeat split; cbn; lia.
    + right. destruct HA as (Hon & id & d & Hc & Ht & Hd). unfold ticking in Ht.
      open_world w. subst re c ivs. run_handler.
      split; [reflexivity|]. exists id, d. repeat split; cbn; lia.
    + right. now apply elapse_armed.
Qed.

Lemma mount_idle_any data b :
  intervals b = [] -> Gated.Idle (Gated.mount data b).
Proof. intros H. repeat split. exact H. Qed.

(** X13: whatever the user does and however time passes, the gated
    component is either Idle (realtime off, no interval, nothing to clean
    up) or Armed (realtime on, exactly one interval, the one the cleanup
    will clear, due within the next five seconds): intervals never pile
    up and none is left behind. *)
Theorem gated_one_interval (data : list TimeSeriesData.t) (t0 : Z)
        (events : list GatedRun.Event) :
  let w := GatedRun.run events (Gated.mount data (newBrowser t0)) in
  Gated.Idle w \/ GatedRun.Armed w.
Proof.
  cbn zeta. unfold GatedRun.run.
  assert (H : Gated.Idle (Gated.mount data (newBrowser t0))
              \/ GatedRun.Armed (Gated.mount data (newBrowser t0)))
    by (left; now apply mount_idle_any).
  revert H. generalize (Gated.mount data (newBrowser t0)).
  induction events as [|e events IH]; intros w H; [exact H|].
  cbn [fold_left]. apply IH. now apply step_settled.
Qed.


Lemma step_untouched (w : World Gated.State) e :
  untouched w (GatedRun.step w e).
Proof.
  destruct e; cbn [GatedRun.step]; unfold untouched.
  - open_world w. destruct re, c; run_handler; repeat split.
  - open_world w. destruct re, c; run_handler; repeat split.
  - open_world w. unfold Gated.onConfirm, Gated.handle. rewrite secret_decoded.
    cbn [view Gated.password].
    destruct (String.eqb pw "bajer"), re, c; run_handler; repeat split.
  - open_world w. destruct re, c; run_handler; repeat split.
  - open_world w. destruct re, c; run_handler; repeat split.
  - unfold elapse.
    match goal with
    | |- context [runTimers Gated.exec ?f ?t ?x] =>
        destruct (runTimers_gated_frame f t x) as (-> & _ & -> & -> & _)
    end.
    repeat split.
Qed.

(** X14: in no run of the gated component is a query ever sent: whatever
    the user does and however long realtime stays enabled, the readings
    remain the rows the page gave at mount, [refreshing] stays false,
    [lastRefreshed] stays empty and nothing is written to the console. *)
Theorem gated_never_fetches (data : list TimeSeriesData.t) (t0 : Z)
        (events : list GatedRun.Event) :
  let w := GatedRun.run events (Gated.mount data (newBrowser t0)) in
  requests (env w) = []
  /\ console (env w) = []
  /\ Gated.dataState (view w) = data
  /\ Gated.refreshing (view w) = false
  /\ Gated.lastRefreshed (view w) = None.
Proof.
  cbn zeta. unfold GatedRun.run.
  assert (H : untouched (Gated.mount data (newBrowser t0))
                (Gated.mount data (newBrowser t0))) by (repeat split).
  revert H.
  generalize (Gated.mount data (newBrowser t0)) at 2 3 4 5 6 7.
  induction events as [|e events IH]; intros w H.
  - cbn [fold_left]. destruct H as (-> & -> & -> & -> & ->). repeat split.
  - cbn [fold_left]. apply IH.
    destruct H as (H1 & H2 & H3 & H4 & H5).
    destruct (step_untouched w e) as (G1 & G2 & G3 & G4 & G5).
    unfold untouched. rewrite G1, G2, G3, G4, G5. repeat split; assumption.
Qed.

(** Without the secret in the password field, every event leaves the
    component Idle. *)
Lemma step_locked (w : World Gated.State) e :
  Gated.Idle w -> Gated.password (view w) <> "bajer" ->
  e <> GatedRun.PasswordChange "bajer" ->
  Gated.Idle (GatedRun.step w e)
  /\ Gated.password (view (GatedRun.step w e)) <> "bajer".
Proof.
  intros HI Hpw He. destruct e; cbn [GatedRun.step].
  - destruct HI as (Hoff & Hc & Hi). open_world w. subst re c ivs.
    run_handler. repeat split. exact Hpw.
  - destruct HI as (Hoff & Hc & Hi). open_world w. subst re c ivs.
    run_handler. repeat split. intros E. apply He. now rewrite E.
  - destruct (onConfirm_idle w HI) as [_ Hno]. rewrite (Hno Hpw).
    destruct HI as (Hoff & Hc & Hi). repeat split; assumption.
  - destruct HI as (Hoff & Hc & Hi). open_world w. subst re c ivs.
    run_handler. repeat split. exact Hpw.
  - destruct HI as (Hoff & Hc & Hi). open_world w. subst re c ivs.
    run_handler. repeat split. exact Hpw.
  - split; [now apply elapse_idle|].
    unfold elapse.
    match goal with
    | |- context [runTimers Gated.exec ?f ?t ?x] =>
        destruct (runTimers_gated_frame f t x) as (-> & _)
    end.
    exact Hpw.
Qed.

(** X15: the gate cannot be passed without the secret: in a run in which
    the password field is never set to it, realtime is never enabled and
    no interval is ever registered, whatever else is clicked or typed. *)
Theorem gate_not_bypassed (data : list TimeSeriesData.t) (t0 : Z)
        (events : list GatedRun.Event) :
  Forall (fun e => e <> GatedRun.PasswordChange "bajer") events ->
  let w := GatedRun.run events (Gated.mount data (newBrowser t0)) in
  Gated.realtimeEnabled (view w) = false
  /\ intervals (env w) = []
  /\ cleanup w = None.
Proof.
  intros Hev. cbn zeta. unfold GatedRun.run.
  assert (H : Gated.Idle (Gated.mount data (newBrowser t0))
              /\ Gated.password (view (Gated.mount data (newBrowser t0))) <> "bajer")
    by (split; [now apply mount_idle_any | discriminate]).
  revert H. generalize (Gated.mount data (newBrowser t0)).
  induction Hev as [|e events He Hev IH]; intros w [HI Hpw]; cbn [fold_left].
  - destruct HI as (H1 & H2 & H3). repeat split; assumption.
  - apply IH. now apply step_locked.
Qed.

Lemma gate_not_bypassed_witness :
  let w := GatedRun.run
             [GatedRun.Toggle; GatedRun.PasswordChange "Bajer";
              GatedRun.Confirm; GatedRun.Elapse 6000]
             (Gated.mount [] (newBrowser 0)) in
  Gated.realtimeEnabled (view w) = false
  /\ intervals (env w) = []
  /\ cleanup w = None.
Proof.
  apply (gate_not_bypassed [] 0).
  repeat constructor; discriminate.
Defined.

Lemma run_app events more (w : World Gated.State) :
  GatedRun.run (events ++ more) w = GatedRun.run more (GatedRun.run events w).
Proof. unfold GatedRun.run. apply fold_left_app. Qed.

Lemma onPasswordChange_idle typed (w : World Gated.State) :
  Gated.Idle w ->
  Gated.Idle (Gated.onPasswordChange typed w)
  /\ Gated.password (view (Gated.onPasswordChange typed w)) = typed
  /\ alerts (env (Gated.onPasswordChange typed w)) = alerts (env w).
Proof.
  intros (Hoff & Hc & Hi). open_world w. subst re c ivs. run_handler.
  repeat split.
Qed.

Lemma wrong_attempts wrongs : forall w : World Gated.State,
  Gated.Idle w ->
  Forall (fun pw => pw <> "bajer") wrongs ->
  let w' := GatedRun.run
              (flat_map (fun pw => [GatedRun.PasswordChange pw; GatedRun.Confirm])
                 wrongs) w in
  Gated.Idle w'
  /\ alerts (env w')
     = alerts (env w) ++ repeat "Incorrect password" (List.length wrongs).
Proof.
  induction wrongs as [|pw wrongs IH]; intros w HI Hw; cbn zeta.
  - cbn. rewrite app_nil_r. now split.
  - inversion Hw as [|? ? Hpw Hw']; subst.
    cbn [flat_map app GatedRun.run fold_left GatedRun.step].
    destruct (onPasswordChange_idle pw w HI) as (HI1 & Hp1 & Ha1).
    destruct (onConfirm_idle _ HI1) as [_ Hno].
    rewrite Hp1 in Hno. rewrite (Hno Hpw).
    assert (HI2 : Gated.Idle (onEnv (alert "Incorrect password")
                                (Gated.onPasswordChange pw w)))
      by (destruct HI1 as (H1 & H2 & H3); repeat split; assumption).
    destruct (IH _ HI2 Hw') as (HI3 & Ha3).
    split; [exact HI3|].
    unfold GatedRun.run in Ha3. rewrite Ha3.
    cbn [onEnv env alert alerts]. rewrite Ha1, <- app_assoc. reflexivity.
Qed.

(** X16: wrong passwords are not counted against the user: after any
    number of wrong attempts, each answered by the alert "Incorrect
    password", the right password still enables realtime. *)
Theorem no_lockout (data : list TimeSeriesData.t) (t0 : Z) (wrongs : list string) :
  Forall (fun pw => pw <> "bajer") wrongs ->
  let w := GatedRun.run (GatedRun.attempts wrongs)
             (Gated.mount data (newBrowser t0)) in
  GatedRun.Armed w
  /\ alerts (env w) = repeat "Incorrect password" (List.length wrongs).
Proof.
  intros Hw. cbn zeta. unfold GatedRun.attempts.
  change (GatedRun.run (GatedRun.Toggle :: ?l) ?w)
    with (GatedRun.run l (Gated.onToggle w)).
  rewrite run_app.
  assert (HI : Gated.Idle (Gated.onToggle (Gated.mount data (newBrowser t0))))
    by (repeat split).
  destruct (wrong_attempts wrongs _ HI Hw) as (HI1 & Ha1).
  cbn zeta in HI1, Ha1.
  set (w1 := GatedRun.run _ (Gated.onToggle _)) in *.
  cbn [GatedRun.run fold_left GatedRun.step].
  destruct (onPasswordChange_idle "bajer" w1 HI1) as (HI2 & Hp2 & Ha2).
  destruct (onConfirm_idle _ HI2) as [Hyes _].
  destruct (Hyes Hp2) as (HA & Ha3 & _).
  split; [exact HA|]. rewrite Ha3, Ha2, Ha1. reflexivity.
Qed.

Lemma no_lockout_witness :
  let w := GatedRun.run (GatedRun.attempts ["bajr"; ""; "BAJER"])
             (Gated.mount [] (newBrowser 0)) in
  GatedRun.Armed w
  /\ alerts (env w)
     = ["Incorrect password"; "Incorrect password"; "Incorrect password"].
Proof.
  apply (no_lockout [] 0 ["bajr"; ""; "BAJER"]).
  repeat constructor; discriminate.
Defined.

(** X17: the password stays in the field: once realtime has been enabled
    and then disabled, opening the dialog and confirming enables it again
    without typing, with a new interval first due five seconds later. *)
Theorem reenable_without_typing (w : World Gated.State) :
  GatedRun.Armed w ->
  Gated.password (view w) = "bajer" ->
  let w' := Gated.onConfirm (Gated.onToggle (Gated.onToggle w)) in
  GatedRun.Armed w'
  /\ ticking (nextId (env w)) (now (env w) + 5000) w'
  /\ Gated.password (view w') = "bajer"
  /\ alerts (env w') = alerts (env w).
Proof.
  intros (Hon & id & d & Hc & Ht & Hd) Hpw. unfold ticking in Ht.
  open_world w. subst re c ivs pw. cbn zeta. run_handler.
  rewrite Nat.eqb_refl. cbn.
  split; [|repeat split].
  split; [reflexivity|]. exists nid, (t + 5000).
  split; [reflexivity|]. split; [reflexivity|]. cbn. lia.
Qed.

Lemma reenable_without_typing_witness :
  let w := Gated.enableWith "bajer" (Gated.mount [] (newBrowser 0)) in
  GatedRun.Armed (Gated.onConfirm (Gated.onToggle (Gated.onToggle w))).
Proof.
  refine (proj1 (reenable_without_typing
                   (Gated.enableWith "bajer" (Gated.mount [] (newBrowser 0))) _ _)).
  - split; [reflexivity|]. exists 1%nat, 5000.
    split; [reflexivity|]. split; [reflexivity|]. cbn. lia.
  - reflexivity.
Defined.

(** X18: opening the dialog and cancelling it leaves no trace: with
    realtime off and the dialog closed, Toggle followed by Cancel gives
    back the very same state, browser and cleanup. *)
Theorem dialog_cancel_restores (w : World Gated.State) :
  Gated.realtimeEnabled (view w) = false ->
  Gated.showPasswordModal (view w) = false ->
  Gated.onCancel (Gated.onToggle w) = w
  /\ Gated.showPasswordModal (view (Gated.onToggle w)) = true
  /\ Gated.realtimeEnabled (view (Gated.onToggle w)) = false.
Proof.
  intros Hoff Hm. open_world w. subst re sm. run_handler. repeat split.
Qed.

Lemma dialog_cancel_restores_witness :
  Gated.onCancel (Gated.onToggle (Gated.mount [] (newBrowser 0)))
  = Gated.mount [] (newBrowser 0).
Proof.
  apply (dialog_cancel_restores (Gated.mount [] (newBrowser 0)));
    reflexivity.
Defined.

(** ** Runs of the always-on component *)

Lemma runTimers_alwaysOn_frame fuel : forall target (w : World AlwaysOn.State),
  let w' := runTimers AlwaysOn.exec fuel target w in
  cleanup w' = cleanup w
  /\ AlwaysOn.dataState (view w') = AlwaysOn.dataState (view w)
  /\ AlwaysOn.lastRefreshed (view w') = AlwaysOn.lastRefreshed (view w)
  /\ AlwaysOn.threshold (view w') = AlwaysOn.threshold (view w)
  /\ console (env w') = console (env w).
Proof.
  induction fuel as [|fuel IH]; intros target w; cbn zeta; [repeat split|].
  cbn [runTimers]. destruct (nextDue _ _) as [[id iv]|]; [|repeat split].
  destruct (IH target (AlwaysOn.exec (callback iv)
              (onEnv (fun b => reschedule id (setNow (due iv) b)) w)))
    as (-> & -> & -> & -> & ->).
  destruct (callback iv). repeat split.
Qed.

Lemma elapse_onSchedule t0 T dt (w : World AlwaysOn.State) :
  0 <= T -> onSchedule t0 T w ->
  onSchedule t0 (T + Z.max 0 dt) (elapse AlwaysOn.exec dt w).
Proof.
  intros HT (Hn & Ht & Hc & Hr).
  unfold elapse. pose proof Ht as Hi. unfold ticking in Hi. rewrite Hi.
  cbn [List.length].
  set (m := Z.max 0 dt). assert (Hm : 0 <= m) by (subst m; lia).
  set (fuel := Datatypes.S (Z.to_nat m * 2)).
  set (d := t0 + 5000 * (1 + T / 5000)) in *.
  set (target := now (env w) + m).
  assert (Eq : (target - d + 5000) / 5000 = (T + m) / 5000 - T / 5000).
  { subst target d. rewrite Hn. Z.to_euclidean_division_equations; lia. }
  assert (Hq : 0 <= (T + m) / 5000 - T / 5000)
    by (Z.to_euclidean_division_equations; lia).
  assert (Hfuel : (Z.to_nat ((target - d + 5000) / 5000) < fuel)%nat).
  { subst fuel.
    replace (target - d + 5000) with (m + T mod 5000)
      by (subst target d; rewrite Hn; Z.to_euclidean_division_equations; lia).
    apply ticks_bound; try assumption; apply Z.mod_pos_bound; lia. }
  destruct (runTimers_polling fuel target w 1%nat d Ht Hfuel) as (Gr & Gn & Gt).
  destruct (runTimers_alwaysOn_frame fuel target w) as (Gc & _).
  rewrite Eq in Gr, Gt.
  assert (HT5 : 0 <= T / 5000) by (Z.to_euclidean_division_equations; lia).
  split; [|split; [|split]].
  - rewrite Gn. subst target. lia.
  - rewrite Z2Nat.id in Gt by assumption.
    replace (t0 + 5000 * (1 + (T + m) / 5000))
      with (d + 5000 * ((T + m) / 5000 - T / 5000)) by (subst d; lia).
    exact Gt.
  - now rewrite Gc.
  - rewrite Gr, Hr, <- repeat_app. f_equal. unfold ticksIn.
    revert Hq HT5. generalize (T / 5000) ((T + m) / 5000). intros a b Hq HT5.
    lia.
Qed.

Lemma mount_onSchedule data t0 :
  onSchedule t0 0 (AlwaysOn.mount data (newBrowser t0)).
Proof.
  repeat split. cbn. f_equal. lia.
Qed.

Lemma step_onSchedule t0 T (w : World AlwaysOn.State) e :
  0 <= T -> onSchedule t0 T w ->
  onSchedule t0 (match e with
                 | AlwaysOnRun.Elapse dt => T + Z.max 0 dt
                 | _ => T
                 end) (AlwaysOnRun.step w e).
Proof.
  intros HT H. destruct e as [v|dt|r]; cbn [AlwaysOnRun.step].
  - destruct H as (Hn & Ht & Hc & Hr). repeat split; assumption.
  - now apply elapse_onSchedule.
  - destruct H as (Hn & Ht & Hc & Hr). unfold ticking in *.
    destruct r as [dat [err|]]; repeat split; assumption.
Qed.

Lemma run_onSchedule t0 events : forall T (w : World AlwaysOn.State),
  0 <= T -> onSchedule t0 T w ->
  let T' := fold_left (fun t e => match e with
                                  | AlwaysOnRun.Elapse dt => t + Z.max 0 dt
                                  | _ => t
                                  end) events T in
  0 <= T' /\ onSchedule t0 T' (AlwaysOnRun.run events w).
Proof.
  induction events as [|e events IH]; intros T w HT H; cbn zeta.
  - now split.
  - cbn [fold_left AlwaysOnRun.run]. apply IH.
    + destruct e; lia.
    + pose proof (step_onSchedule t0 T w e HT H) as G.
      destruct e; exact G.
Qed.

(** X19: the always-on component polls on schedule whatever happens in
    between: after any run of threshold changes, responses and waits, the
    number of queries sent is one (at mount) plus one per full five seconds
    of the time passed in all, every one the all-rows query, and the
    interval is next due at the following multiple of five seconds from
    mount. *)
Theorem alwaysOn_polls_on_schedule (data : list TimeSeriesData.t) (t0 : Z)
        (events : list AlwaysOnRun.Event) :
  let w := AlwaysOnRun.run events (AlwaysOn.mount data (newBrowser t0)) in
  let T := AlwaysOnRun.elapsed events in
  requests (env w) = repeat allRowsQuery (Datatypes.S (ticksIn T))
  /\ now (env w) = t0 + T
  /\ ticking 1 (t0 + 5000 * (1 + T / 5000)) w.
Proof.
  cbn zeta.
  destruct (run_onSchedule t0 events 0 _ (Z.le_refl 0) (mount_onSchedule data t0))
    as (_ & Hn & Ht & _ & Hr).
  fold (AlwaysOnRun.elapsed events) in *. repeat split; assumption.
Qed.

(** X20: unmounting the always-on component after any run clears its
    interval, and from then on no query is sent however long one waits. *)
Theorem alwaysOn_unmount_silences (data : list TimeSeriesData.t) (t0 dt : Z)
        (events : list AlwaysOnRun.Event) :
  let w := AlwaysOnRun.run events (AlwaysOn.mount data (newBrowser t0)) in
  intervals (env (AlwaysOn.unmount w)) = []
  /\ cleanup (AlwaysOn.unmount w) = None
  /\ requests (env (elapse AlwaysOn.exec dt (AlwaysOn.unmount w)))
     = requests (env w).
Proof.
  cbn zeta.
  destruct (run_onSchedule t0 events 0 _ (Z.le_refl 0) (mount_onSchedule data t0))
    as (_ & _ & Ht & Hc & _).
  cbn zeta in Ht, Hc.
  set (w := AlwaysOnRun.run events _) in *.
  assert (Hi : intervals (env (AlwaysOn.unmount w)) = []).
  { unfold AlwaysOn.unmount, AlwaysOn.runCleanup. rewrite Hc.
    cbn [env clearInterval intervals]. unfold ticking in Ht. rewrite Ht. reflexivity. }
  split; [exact Hi|]. split.
  - unfold AlwaysOn.unmount, AlwaysOn.runCleanup. now rewrite Hc.
  - destruct (elapse_no_interval AlwaysOn.exec dt _ Hi) as (-> & _).
    unfold AlwaysOn.unmount, AlwaysOn.runCleanup. now rewrite Hc.
Qed.

Lemma step_shown (w : World AlwaysOn.State) e t :
  (exists T, 0 <= T /\ onSchedule t T w) ->
  let acc := (now (env w), AlwaysOn.dataState (view w),
              AlwaysOn.lastRefreshed (view w)) in
  let w' := AlwaysOnRun.step w e in
  AlwaysOnRun.shown acc e
  = (now (env w'), AlwaysOn.dataState (view w'), AlwaysOn.lastRefreshed (view w')).
Proof.
  intros (T & HT & H). cbn zeta. destruct e as [v|dt|r]; cbn [AlwaysOnRun.step AlwaysOnRun.shown].
  - reflexivity.
  - destruct (elapse_onSchedule t T dt w HT H) as (Hn & _).
    destruct H as (Hn0 & _). rewrite Hn, Hn0.
    unfold elapse.
    match goal with
    | |- context [runTimers AlwaysOn.exec ?f ?g ?x] =>
        destruct (runTimers_alwaysOn_frame f g x) as (_ & -> & -> & _)
    end.
    f_equal. f_equal. lia.
  - destruct r as [dat [err|]]; reflexivity.
Qed.

(** X21: what the always-on dashboard shows after any run is what the
    latest response without error brought: the readings are its rows (none
    when its [data] is null) and [lastRefreshed] is the time it arrived;
    failed responses, polls and threshold changes leave both as they
    were, and with no successful response yet the readings are the rows
    given at mount and [lastRefreshed] is empty. *)
Theorem alwaysOn_shows_latest_success (data : list TimeSeriesData.t) (t0 : Z)
        (events : list AlwaysOnRun.Event) :
  let w := AlwaysOnRun.run events (AlwaysOn.mount data (newBrowser t0)) in
  fold_left AlwaysOnRun.shown events (t0, data, None)
  = (now (env w), AlwaysOn.dataState (view w), AlwaysOn.lastRefreshed (view w)).
Proof.
  cbn zeta.
  assert (H0 : exists T, 0 <= T /\ onSchedule t0 T (AlwaysOn.mount data (newBrowser t0)))
    by (exists 0; split; [lia | apply mount_onSchedule]).
  change (t0, data, @None Z)
    with (now (env (AlwaysOn.mount data (newBrowser t0))),
          AlwaysOn.dataState (view (AlwaysOn.mount data (newBrowser t0))),
          AlwaysOn.lastRefreshed (view (AlwaysOn.mount data (newBrowser t0)))).
  revert H0. generalize (AlwaysOn.mount data (newBrowser t0)).
  induction events as [|e events IH]; intros w H; [reflexivity|].
  cbn [fold_left AlwaysOnRun.run].
  rewrite (step_shown w e t0 H). apply IH.
  destruct H as (T & HT & H).
  exists (match e with AlwaysOnRun.Elapse dt => T + Z.max 0 dt | _ => T end).
  split; [destruct e; lia | now apply step_onSchedule].
Qed.

(** X22: [refreshing] does not count the fetches in flight: when two polls
    overlap, the first response to arrive, failed or not, clears the flag
    although the other fetch is still awaited. *)
Theorem refreshing_cleared_by_first_response (w : World AlwaysOn.State)
        (r : Supabase.Response) :
  let sent := call AlwaysOn.fetchData (call AlwaysOn.fetchData w) in
  AlwaysOn.refreshing (view sent) = true
  /\ requests (env sent) = requests (env w) ++ [allRowsQuery; allRowsQuery]
  /\ AlwaysOn.refreshing (view (resume AlwaysOn.fetchData r sent)) = false
  /\ requests (env (resume AlwaysOn.fetchData r sent)) = requests (env sent).
Proof.
  cbn zeta. split; [reflexivity|]. split.
  - cbn. now rewrite <- app_assoc.
  - destruct r as [dat [err|]]; split; reflexivity.
Qed.

(** ** The latest value and the top of the table *)

Lemma tableData_unique_witness :
  rev scenarioPoints = tableData scenarioPoints.
Proof.
  apply (tableData_unique scenarioPoints (rev scenarioPoints)).
  - repeat constructor; unfold ts; cbn; lia.
  - intros t. unfold scenarioPoints. cbn [rev app filter].
    unfold atTime, ts. cbn [ChartData.timestamp].
    destruct (Z.eqb_spec 1719820805000 t), (Z.eqb_spec 1719820800000 t);
      try reflexivity; exfalso; lia.
Defined.

(** X24: when the chart sequence is strictly ascending in time, the number
    in the latest-value box is the count in the first row of the table; on
    the empty sequence the box shows the marker and the table has no
    row. *)
Theorem latest_is_table_top (points : list ChartData.t) :
  StronglySorted (fun a b => ts a < ts b) points ->
  latestValue points
  = match tableData points with
    | top :: _ => inl (ChartData.value top)
    | [] => inr "N/A"
    end.
Proof.
  intros H. rewrite (sort_ascending_rev points H).
  destruct (rev points) as [|p l] eqn:E.
  - apply (f_equal (@rev _)) in E. rewrite rev_involutive in E. now subst.
  - apply (f_equal (@rev _)) in E. rewrite rev_involutive in E. cbn [rev] in E.
    subst points. unfold latestValue. now rewrite at_last.
Qed.

Lemma latest_is_table_top_witness :
  latestValue ascendingPoints = inl (-1).
Proof.
  exact (latest_is_table_top ascendingPoints ascendingPoints_sorted).
Defined.
